(* Shallow embedding of src/voice_agent/webhook_server.py
   (Medical Drone Voice Agent webhook server). *)

From Stdlib Require Import String Ascii List ZArith Bool Lia Sorting.Sorted
  Classes.RelationClasses.
Import ListNotations.
Open Scope Z_scope.
Open Scope string_scope.
Set Warnings "-register-all".

(* ------------------------------------------------------------------ *)
(** * JSON values as the handler receives them from [request.json()] *)

(** JSON numbers are modelled as integers: no claim depends on a
    fractional value. A JSON object keeps its key order (Python dicts
    preserve insertion order); keys are unique in a parsed object. *)
Inductive json : Type :=
| JNull
| JBool (b : bool)
| JInt (z : Z)
| JStr (s : string)
| JList (l : list json)
| JDict (kv : list (string * json)).

(** Python exceptions raised by the code. *)
Inductive exn : Type :=
| KeyError (k : json)
| TypeError
| AttributeError
| IndexError
| ValueError
| JSONDecodeError
| PyException (msg : string).

Inductive result (A : Type) : Type :=
| Ok (a : A)
| Err (e : exn).
Arguments Ok {A} a.
Arguments Err {A} e.

(** Python truthiness ([if x:], [not x], [x or y]). *)
Definition py_truthy (j : json) : bool :=
  match j with
  | JNull => false
  | JBool b => b
  | JInt z => negb (Z.eqb z 0)
  | JStr s => negb (String.eqb s EmptyString)
  | JList l => negb (Nat.eqb (length l) 0)
  | JDict kv => negb (Nat.eqb (length kv) 0)
  end.

(** First binding of a key (dict lookup). *)
Fixpoint dict_get {A} (kv : list (string * A)) (k : string) : option A :=
  match kv with
  | [] => None
  | (k', v) :: rest => if String.eqb k k' then Some v else dict_get rest k
  end.

(** [d[k] = v]: replaces the binding in place, or appends a new key. *)
Fixpoint dict_set {A} (kv : list (string * A)) (k : string) (v : A)
  : list (string * A) :=
  match kv with
  | [] => [(k, v)]
  | (k', v') :: rest =>
      if String.eqb k k' then (k', v) :: rest else (k', v') :: dict_set rest k v
  end.

(** Python [==] on JSON values: [True == 1], dict equality ignores order. *)
Fixpoint py_eq (a b : json) {struct a} : bool :=
  let num j := match j with
               | JInt z => Some z
               | JBool true => Some 1
               | JBool false => Some 0
               | _ => None end in
  match a, b with
  | JNull, JNull => true
  | JStr s, JStr t => String.eqb s t
  | JList l1, JList l2 =>
      (fix go (l1 l2 : list json) : bool :=
         match l1, l2 with
         | [], [] => true
         | x :: r1, y :: r2 => py_eq x y && go r1 r2
         | _, _ => false
         end) l1 l2
  | JDict kv1, JDict kv2 =>
      Nat.eqb (length kv1) (length kv2) &&
      (fix go (kv : list (string * json)) : bool :=
         match kv with
         | [] => true
         | (k, v) :: r =>
             match dict_get kv2 k with
             | Some w => py_eq v w && go r
             | None => false
             end
         end) kv1
  | _, _ =>
      match num a, num b with
      | Some x, Some y => Z.eqb x y
      | _, _ => false
      end
  end.

Definition py_eq_str (j : json) (s : string) : bool := py_eq j (JStr s).

(* ------------------------------------------------------------------ *)
(** * Process state and the state/exception monad *)

(** One entry of [drone_fleet]: {"status", "battery", "location"}. *)
Record drone := mkDrone {
  status : string;
  battery : Z;
  location : string
}.

(** Module-level mutable state of webhook_server.py. *)
Record state := mkState {
  drone_fleet : list (Z * drone);          (* dict: id -> drone *)
  active_orders : list (string * json);    (* dict: order id -> order dict *)
  live_transcript : list json;             (* deque(maxlen=100) *)
  sse_clients : list nat;                  (* list of queue handles *)
  scheduled : list json                    (* broadcast_transcript tasks created *)
}.

(** Values drawn from the environment: clock readings and [uuid.uuid4()]. *)
Record env := mkEnv {
  clock_hm : string;            (* datetime.now().strftime("%I:%M %p") *)
  now_iso : string;             (* datetime.now().isoformat() *)
  eta_iso : Z -> string;        (* (now + timedelta(minutes=m)).isoformat() *)
  code_hex : list nat;          (* uuid.uuid4().hex, as nibbles *)
  order_uuid : string;          (* str(uuid.uuid4()) *)
  age_of : json -> option Z     (* seconds since datetime.fromisoformat(t); None: it raises *)
}.

Definition M (A : Type) : Type := state -> result A * state.

Definition ret {A} (a : A) : M A := fun s => (Ok a, s).
Definition raise {A} (e : exn) : M A := fun s => (Err e, s).
Definition bind {A B} (m : M A) (k : A -> M B) : M B :=
  fun s => match m s with
           | (Ok a, s') => k a s'
           | (Err e, s') => (Err e, s')
           end.
Definition get_state : M state := fun s => (Ok s, s).
Definition put_state (s : state) : M unit := fun _ => (Ok tt, s).
(** [try: m except Exception: h] *)
Definition try_except {A} (m : M A) (h : exn -> M A) : M A :=
  fun s => match m s with
           | (Err e, s') => h e s'
           | r => r
           end.

Notation "x <- m ;; k" := (bind m (fun x => k))
  (at level 61, m at next level, right associativity).
Notation "m ;;; k" := (bind m (fun _ => k))
  (at level 61, right associativity).

Definition lift {A} (r : result A) : M A :=
  match r with Ok a => ret a | Err e => raise e end.

(* ------------------------------------------------------------------ *)
(** * Python operations on JSON values *)

(** [obj.get(k, default)] *)
Definition py_get (obj : json) (k : string) (default : json) : result json :=
  match obj with
  | JDict kv => Ok (match dict_get kv k with Some v => v | None => default end)
  | _ => Err AttributeError
  end.

(** [obj[k]] with a string key *)
Definition py_getitem (obj : json) (k : string) : result json :=
  match obj with
  | JDict kv => match dict_get kv k with
                | Some v => Ok v
                | None => Err (KeyError (JStr k))
                end
  | _ => Err TypeError
  end.

Definition char_str (c : ascii) : json := JStr (String c EmptyString).

Fixpoint chars (s : string) : list json :=
  match s with
  | EmptyString => []
  | String c r => char_str c :: chars r
  end.

(** [obj[0]] *)
Definition py_index0 (obj : json) : result json :=
  match obj with
  | JList (x :: _) => Ok x
  | JList [] => Err IndexError
  | JStr (String c _) => Ok (char_str c)
  | JStr EmptyString => Err IndexError
  | JDict kv => Err (KeyError (JInt 0))
  | _ => Err TypeError
  end.

(** [for x in obj] *)
Definition py_iter (obj : json) : result (list json) :=
  match obj with
  | JList l => Ok l
  | JStr s => Ok (chars s)
  | JDict kv => Ok (map (fun p => JStr (fst p)) kv)
  | _ => Err TypeError
  end.

(** [reversed(obj)] (dicts are reversible since Python 3.8) *)
Definition py_reversed (obj : json) : result (list json) :=
  match py_iter obj with
  | Ok l => Ok (rev l)
  | Err e => Err e
  end.

(** [len(obj)] *)
Definition py_len (obj : json) : result Z :=
  match obj with
  | JList l => Ok (Z.of_nat (length l))
  | JStr s => Ok (Z.of_nat (String.length s))
  | JDict kv => Ok (Z.of_nat (length kv))
  | _ => Err TypeError
  end.

(** [x in [...]] for a list of strings *)
Definition py_in_strs (x : json) (l : list string) : bool :=
  existsb (py_eq_str x) l.

(** [str.upper()] on ASCII text *)
Definition upper_char (c : ascii) : ascii :=
  let n := nat_of_ascii c in
  if (Nat.leb 97 n && Nat.leb n 122)%bool then ascii_of_nat (n - 32) else c.

Fixpoint upper (s : string) : string :=
  match s with
  | EmptyString => EmptyString
  | String c r => String (upper_char c) (upper r)
  end.

(** [x[:3].upper()]: slicing a list works but a list has no [upper];
    other non-string values cannot be sliced. *)
Definition py_slice3_upper (x : json) : result string :=
  match x with
  | JStr s => Ok (upper (substring 0 3 s))
  | JList _ => Err AttributeError
  | _ => Err TypeError
  end.

(** Lowercase hexadecimal digit, as [uuid.hex] renders it. *)
Definition hex_digit (n : nat) : ascii :=
  if Nat.ltb n 10 then ascii_of_nat (48 + n) else ascii_of_nat (87 + n).

Fixpoint hex_string (l : list nat) : string :=
  match l with
  | [] => EmptyString
  | n :: r => String (hex_digit n) (hex_string r)
  end.

(** Decimal rendering of a non-negative integer ([str(n)], [f"{n}"]). *)
Fixpoint digits_rev (fuel : nat) (n : N) : string :=
  match fuel with
  | O => EmptyString
  | S f =>
      let d := ascii_of_nat (48 + N.to_nat (N.modulo n 10)) in
      if N.ltb n 10 then String d EmptyString
      else String.append (digits_rev f (N.div n 10)) (String d EmptyString)
  end.

Definition z_to_string (z : Z) : string :=
  if Z.ltb z 0 then String "-" (digits_rev 64 (Z.to_N (- z)))
  else digits_rev 64 (Z.to_N z).

(** Dict literal [{..., **items}] merge: later keys override, keeping first position. *)
Definition dict_merge (base : list (string * json)) (items : list (string * json))
  : list (string * json) :=
  fold_left (fun acc kv => dict_set acc (fst kv) (snd kv)) items base.

(** The mapping behind [**order_data]. *)
Definition py_items (obj : json) : result (list (string * json)) :=
  match obj with
  | JDict kv => Ok kv
  | _ => Err TypeError
  end.

(* ------------------------------------------------------------------ *)
(** * Fleet Registry: [drone_fleet] and [DroneDispatcher] *)

(** The seed fleet, lines 59-63. *)
Definition seed_fleet : list (Z * drone) :=
  [(1, mkDrone "available" 95 "depot");
   (2, mkDrone "available" 88 "depot");
   (3, mkDrone "available" 92 "depot")].

Definition init_state : state := mkState seed_fleet [] [] [] [].

Fixpoint fleet_get (f : list (Z * drone)) (id : Z) : option drone :=
  match f with
  | [] => None
  | (i, d) :: r => if Z.eqb id i then Some d else fleet_get r id
  end.

(** [drone_fleet[id]["status"] = st] *)
Fixpoint fleet_set_status (f : list (Z * drone)) (id : Z) (st : string)
  : list (Z * drone) :=
  match f with
  | [] => []
  | (i, d) :: r =>
      if Z.eqb id i then (i, mkDrone st (battery d) (location d)) :: r
      else (i, d) :: fleet_set_status r id st
  end.

(** [status["status"] == "available" and status["battery"] > 30] *)
Definition eligible (d : drone) : bool :=
  String.eqb (status d) "available" && Z.ltb 30 (battery d).

(** The list comprehension [available] of select_optimal_drone. *)
Definition available_ids (f : list (Z * drone)) : list Z :=
  map fst (filter (fun p => eligible (snd p)) f).

(** [drone_fleet[d]["battery"]]; [d] always comes from the fleet's keys. *)
Definition battery_of (f : list (Z * drone)) (id : Z) : Z :=
  match fleet_get f id with Some d => battery d | None => 0 end.

(** [max(l, key=k)]: the first element with the largest key. *)
Fixpoint py_max_key (k : Z -> Z) (best : Z) (l : list Z) : Z :=
  match l with
  | [] => best
  | y :: r => py_max_key k (if Z.ltb (k best) (k y) then y else best) r
  end.

(** DroneDispatcher.select_optimal_drone, lines 84-115. *)
Definition select_optimal_drone (urgency : json) : M Z :=
  s <- get_state ;;
  match available_ids (drone_fleet s) with
  | [] => raise (PyException "No drones available")
  | d :: rest =>
      if py_eq_str urgency "STAT"
      then ret (py_max_key (battery_of (drone_fleet s)) d rest)
      else ret d
  end.

Definition set_drone_status (id : Z) (st : string) : M unit :=
  s <- get_state ;;
  put_state (mkState (fleet_set_status (drone_fleet s) id st) (active_orders s)
                     (live_transcript s) (sse_clients s) (scheduled s)).

(** [urgency_eta.get(u, 5)] with [urgency_eta = {"STAT": 2, "urgent": 3, "routine": 5}];
    a list or dict key is unhashable. *)
Definition urgency_eta_get (u : json) : result Z :=
  match u with
  | JStr s =>
      if String.eqb s "STAT" then Ok 2
      else if String.eqb s "urgent" then Ok 3
      else Ok 5
  | JList _ | JDict _ => Err TypeError
  | _ => Ok 5
  end.

(** DroneDispatcher.calculate_eta, lines 117-137. *)
Definition calculate_eta (drone_id : Z) (destination : json) : M Z :=
  u <- lift (py_get destination "urgency" (JStr "routine")) ;;
  lift (urgency_eta_get u).

(* ------------------------------------------------------------------ *)
(** * Order Ledger: [active_orders] *)

(** [active_orders[order_id] = record] *)
Definition set_order (order_id : string) (record : json) : M unit :=
  s <- get_state ;;
  put_state (mkState (drone_fleet s) (dict_set (active_orders s) order_id record)
                     (live_transcript s) (sse_clients s) (scheduled s)).

(** [f"{order_data['facility'][:3].upper()}-{uuid.uuid4().hex[:4].upper()}"] *)
Definition tracking_code (prefix : string) (hex : list nat) : string :=
  prefix ++ "-" ++ upper (substring 0 4 (hex_string hex)).

(** DroneDispatcher.dispatch_mission, lines 139-234. The [print] calls
    that subscript [order_data] are kept: they raise on a missing key. *)
Definition dispatch_mission (e : env) (order_data : json) : M json :=
  urgency <- lift (py_getitem order_data "urgency") ;;
  drone_id <- select_optimal_drone urgency ;;
  set_drone_status drone_id "dispatched" ;;;
  eta_minutes <- calculate_eta drone_id order_data ;;
  facility <- lift (py_getitem order_data "facility") ;;
  prefix <- lift (py_slice3_upper facility) ;;
  let confirmation_code := tracking_code prefix (code_hex e) in
  let order_id := order_uuid e in
  items <- lift (py_items order_data) ;;
  set_order order_id
    (JDict (dict_merge
              [("order_id", JStr order_id);
               ("drone_id", JInt drone_id);
               ("confirmation_code", JStr confirmation_code);
               ("timestamp", JStr (now_iso e));
               ("eta", JStr (eta_iso e eta_minutes));
               ("status", JStr "dispatched")] items)) ;;;
  (* print(f"Medications: {len(order_data['medications'])} items") *)
  meds <- lift (py_getitem order_data "medications") ;;
  _ <- lift (py_len meds) ;;
  (* print(f"Destination: {order_data['facility']} - {order_data['department']}") *)
  _ <- lift (py_getitem order_data "facility") ;;
  _ <- lift (py_getitem order_data "department") ;;
  ret (JDict [("order_id", JStr order_id);
              ("drone_id", JInt drone_id);
              ("eta_minutes", JInt eta_minutes);
              ("confirmation_code", JStr confirmation_code);
              ("status", JStr "dispatched")]).

(* ------------------------------------------------------------------ *)
(** * Transcript Aggregator and Broadcast Hub *)

(** [deque.append] on a [deque(maxlen=maxlen)]: the oldest entry is
    evicted once the length would exceed [maxlen]. *)
Definition deque_append (maxlen : nat) (w : list json) (x : json) : list json :=
  let w' := (w ++ [x])%list in
  if Nat.ltb maxlen (length w') then tl w' else w'.

(** [live_transcript.append(entry)] followed by
    [asyncio.create_task(broadcast_transcript(entry))]: the task is
    recorded as scheduled, it runs on the event loop later. *)
Definition publish_entry (entry : json) : M unit :=
  s <- get_state ;;
  put_state (mkState (drone_fleet s) (active_orders s)
                     (deque_append 100 (live_transcript s) entry)
                     (sse_clients s) (scheduled s ++ [entry])%list).

(** [speaker = "VAPI Agent" if role == "assistant" else "User"] *)
Definition speaker_of (role : json) : string :=
  if py_eq_str role "assistant" then "VAPI Agent" else "User".

Definition transcript_entry (role text : json) (time : string) : json :=
  JDict [("speaker", JStr (speaker_of role)); ("text", text);
         ("time", JStr time); ("role", role)].

(** Lines 406-410: the content of the last message whose role is [role]. *)
Fixpoint last_content_of_role (role : json) (msgs : list json) : result json :=
  match msgs with
  | [] => Ok (JStr EmptyString)
  | msg :: rest =>
      match py_get msg "role" JNull with
      | Err ex => Err ex
      | Ok r =>
          if py_eq r role then py_get msg "content" (JStr EmptyString)
          else last_content_of_role role rest
      end
  end.

(** Lines 440-457, over [reversed(conversation)]. *)
Fixpoint conversation_loop (e : env) (msgs : list json) : M unit :=
  match msgs with
  | [] => ret tt
  | msg :: rest =>
      role <- lift (py_get msg "role" (JStr EmptyString)) ;;
      if py_in_strs role ["user"; "assistant"] then
        content <- lift (py_get msg "content" (JStr EmptyString)) ;;
        if py_truthy content
        then publish_entry (transcript_entry role content (clock_hm e))
        else conversation_loop e rest
      else conversation_loop e rest
  end.

(** The SSE subscriber registry: [sse_clients.append(queue)] and
    [sse_clients.remove(queue)] (Python's [list.remove] drops the first
    occurrence and raises [ValueError] when there is none). *)
Definition subscribe (q : nat) (clients : list nat) : list nat := (clients ++ [q])%list.

Fixpoint list_remove (q : nat) (clients : list nat) : result (list nat) :=
  match clients with
  | [] => Err ValueError
  | c :: rest =>
      if Nat.eqb c q then Ok rest
      else match list_remove q rest with
           | Ok r => Ok (c :: r)
           | Err ex => Err ex
           end
  end.

(** The lifecycle of one SSE connection, [event_generator] (lines 591-606).
    On its first iteration the generator creates a fresh [asyncio.Queue()]
    and appends it to [sse_clients] ([SseConnect]); it then runs inside its
    [try]. [SseCancel q]: [CancelledError] reaches the generator owning [q]
    inside its [try]; the handler runs [sse_clients.remove(queue)] and
    re-raises, which ends the generator. [SseClose q]: the generator owning
    [q] ends another way (for example [GeneratorExit] thrown by [aclose()]),
    which the handler does not catch. A generator that has ended runs no
    more of its body, so a later cancellation of it does nothing. One task
    runs at a time and there is no [await] between creating the queue and
    appending it, nor inside the handler, so any schedule of connections
    and disconnections is a sequence of these steps. Queues are compared by
    identity; [hub_next] is the identity the next queue gets. *)
Inductive sse_event := SseConnect | SseCancel (q : nat) | SseClose (q : nat).

Record hub := mkHub {
  hub_clients : list nat;   (* sse_clients *)
  hub_live : list nat;      (* queues whose generator is inside its try *)
  hub_next : nat
}.

Definition empty_hub : hub := mkHub [] [] 0.

(** One step. Its result is what [sse_clients.remove(queue)] did when the
    handler ran ([Ok tt] when no removal ran). *)
Definition hub_step (ev : sse_event) (h : hub) : result unit * hub :=
  match ev with
  | SseConnect =>
      let q := hub_next h in
      (Ok tt, mkHub (subscribe q (hub_clients h)) (q :: hub_live h) (S q))
  | SseCancel q =>
      if existsb (Nat.eqb q) (hub_live h) then
        let live := remove Nat.eq_dec q (hub_live h) in
        match list_remove q (hub_clients h) with
        | Ok cl => (Ok tt, mkHub cl live (hub_next h))
        | Err ex => (Err ex, mkHub (hub_clients h) live (hub_next h))
        end
      else (Ok tt, h)
  | SseClose q => (Ok tt, mkHub (hub_clients h) (remove Nat.eq_dec q (hub_live h)) (hub_next h))
  end.

Fixpoint hub_run (evs : list sse_event) (h : hub) : list (result unit) * hub :=
  match evs with
  | [] => ([], h)
  | ev :: rest =>
      let (r, h1) := hub_step ev h in
      let (rs, h2) := hub_run rest h1 in
      (r :: rs, h2)
  end.

(** The registry holds each queue once, every generator inside its [try]
    has its queue registered, and no queue has an identity not yet handed
    out. *)
Definition hub_ok (h : hub) : Prop :=
  NoDup (hub_clients h) /\ incl (hub_live h) (hub_clients h) /\
  (forall q, In q (hub_clients h) -> (q < hub_next h)%nat).

(* ------------------------------------------------------------------ *)
(** * validate_order, lines 489-516 *)

Record validation := mkValidation { valid : bool; reason : string }.

Definition validate_order (order_data : json) : result validation :=
  match py_get order_data "medications" JNull with
  | Err ex => Err ex
  | Ok meds =>
      if negb (py_truthy meds) then Ok (mkValidation false "No medications specified")
      else match py_get order_data "delivery_location" JNull with
           | Err ex => Err ex
           | Ok loc =>
               if negb (py_truthy loc)
               then Ok (mkValidation false "No delivery location specified")
               else Ok (mkValidation true EmptyString)
           end
  end.

(* ------------------------------------------------------------------ *)
(** * The webhook handler, [handle_vapi_webhook], lines 241-479 *)

(** What the endpoint does: return a [JSONResponse], or raise
    [HTTPException(status_code=500, detail=str(e))]. *)
Inductive response : Type :=
| Respond (body : json)
| HTTPException500 (e : exn).

Definition result_msg (s : string) : response := Respond (JDict [("result", JStr s)]).

Definition ok_ack : response := Respond (JDict [("status", JStr "ok")]).

(** f-string rendering of the fields of a dispatch result. *)
Definition fmt (j : json) : string :=
  match j with
  | JStr s => s
  | JInt z => z_to_string z
  | _ => EmptyString
  end.

Definition apology_msg : string :=
  "I apologize, but we're experiencing a system issue. Please try again or call our emergency line.".

Definition validation_failed_msg (why : string) : string :=
  "Order validation failed: " ++ why ++ ". Please call back with corrected information.".

Definition confirmed_msg (r : json) : result string :=
  match py_getitem r "drone_id", py_getitem r "eta_minutes", py_getitem r "confirmation_code" with
  | Ok d, Ok m, Ok c =>
      Ok ("Order confirmed. Drone Unit " ++ fmt d ++ " dispatched. Estimated arrival: "
          ++ fmt m ++ " minutes. Your tracking code is " ++ fmt c ++ ".")
  | Err ex, _, _ | _, Err ex, _ | _, _, Err ex => Err ex
  end.

(** The medication lines of the order log, lines 296-298. *)
Fixpoint log_medications (meds : list json) : result unit :=
  match meds with
  | [] => Ok tt
  | med :: rest =>
      match py_getitem med "name", py_getitem med "dosage",
            py_getitem med "quantity", py_getitem med "form" with
      | Ok _, Ok _, Ok _, Ok _ => log_medications rest
      | Err ex, _, _, _ | _, Err ex, _, _ | _, _, Err ex, _ | _, _, _, Err ex => Err ex
      end
  end.

(** The order log of lines 289-304: it subscripts [order_data]. *)
Definition log_order (order_data : json) : M unit :=
  _ <- lift (py_getitem order_data "caller_name") ;;
  _ <- lift (py_getitem order_data "facility") ;;
  _ <- lift (py_getitem order_data "department") ;;
  _ <- lift (py_getitem order_data "urgency") ;;
  meds <- lift (py_getitem order_data "medications") ;;
  meds_l <- lift (py_iter meds) ;;
  lift (log_medications meds_l) ;;;
  loc <- lift (py_getitem order_data "delivery_location") ;;
  _ <- lift (py_get loc "building" (JStr "N/A")) ;;
  _ <- lift (py_get loc "floor" (JStr "N/A")) ;;
  _ <- lift (py_get loc "specific_area" (JStr "N/A")) ;;
  ret tt.

(** The "function-call" / "tool-calls" branch, lines 267-328. [Some r]
    is an early [return r]; [None] falls through to the final ack. *)
Definition on_function_call (e : env) (data : json) : M (option response) :=
  message <- lift (py_getitem data "message") ;;
  fc <- lift (py_get message "functionCall" JNull) ;;
  function_call <-
    (if py_truthy fc then ret fc
     else tc <- lift (py_get message "toolCalls" (JList [JDict []])) ;;
          lift (py_index0 tc)) ;;
  function_name <-
    (if py_truthy function_call then
       f <- lift (py_get function_call "function" (JDict [])) ;;
       n <- lift (py_get f "name" JNull) ;;
       if py_truthy n then ret n else lift (py_get function_call "name" JNull)
     else ret JNull) ;;
  if py_eq_str function_name "dispatch_drone" then
    p <- lift (py_get function_call "parameters" JNull) ;;
    order_data <-
      (if py_truthy p then ret p
       else f <- lift (py_get function_call "function" (JDict [])) ;;
            lift (py_get f "arguments" (JDict []))) ;;
    log_order order_data ;;;
    v <- lift (validate_order order_data) ;;
    if negb (valid v) then ret (Some (result_msg (validation_failed_msg (reason v))))
    else
      try_except
        (r <- dispatch_mission e order_data ;;
         m <- lift (confirmed_msg r) ;;
         ret (Some (result_msg m)))
        (fun _ => ret (Some (result_msg apology_msg)))
  else ret None.

(** [f"{x:.4f}"] *)
Definition fmt_4f (x : json) : result unit :=
  match x with
  | JInt _ | JBool _ => Ok tt
  | JStr _ => Err ValueError
  | _ => Err TypeError
  end.

(** [f"{t[:200]}..." if len(t) > 200 else t] *)
Definition preview (t : json) : result unit :=
  match py_len t with
  | Err ex => Err ex
  | Ok n =>
      if Z.ltb 200 n then
        match t with JStr _ | JList _ => Ok tt | _ => Err TypeError end
      else Ok tt
  end.

(** Lines 353-362: the first order created less than 600 seconds ago
    whose status is "dispatched". *)
Fixpoint find_order_for_call (e : env) (orders : list (string * json))
  : result (option string) :=
  match orders with
  | [] => Ok None
  | (oid, order) :: rest =>
      match py_getitem order "timestamp" with
      | Err ex => Err ex
      | Ok ts =>
          match age_of e ts with
          | None => Err ValueError
          | Some age =>
              match py_get order "status" JNull with
              | Err ex => Err ex
              | Ok st =>
                  if Z.ltb age 600 && py_eq_str st "dispatched"
                  then Ok (Some oid) else find_order_for_call e rest
              end
          end
      end
  end.

(** [order_for_call['transcript'] = t; order_for_call['call_duration'] = d] *)
Definition attach_transcript (oid : string) (t d : json) : M unit :=
  s <- get_state ;;
  match dict_get (active_orders s) oid with
  | Some (JDict o) =>
      put_state (mkState (drone_fleet s)
                   (dict_set (active_orders s) oid
                      (JDict (dict_set (dict_set o "transcript" t) "call_duration" d)))
                   (live_transcript s) (sse_clients s) (scheduled s))
  | _ => ret tt
  end.

(** The "end-of-call-report" branch, lines 331-391. The chat notification
    service is external; its call sits inside a [try] that catches every
    exception, so only the order mutation before it is observable. *)
Definition on_end_of_call (e : env) (data : json) : M (option response) :=
  call_data <- lift (py_getitem data "message") ;;
  _ <- lift (py_get call_data "callId" (JStr "N/A")) ;;
  _ <- lift (py_get call_data "durationSeconds" (JInt 0)) ;;
  _ <- lift (py_get call_data "status" (JStr "N/A")) ;;
  cost <- lift (py_get call_data "cost" (JInt 0)) ;;
  lift (fmt_4f cost) ;;;
  transcript <- lift (py_get call_data "transcript" (JStr "No transcript available")) ;;
  lift (preview transcript) ;;;
  s <- get_state ;;
  found <- lift (find_order_for_call e (active_orders s)) ;;
  match found with
  | Some oid =>
      (* print(f"... {order_for_call['confirmation_code']}..."), outside the try *)
      lift (match dict_get (active_orders s) oid with
            | Some order_for_call => py_getitem order_for_call "confirmation_code"
            | None => Err (KeyError (JStr oid))
            end) ;;;
      d <- lift (py_get call_data "durationSeconds" (JInt 0)) ;;
      attach_transcript oid transcript d ;;;
      ret None
  | None => ret None
  end.

(** The "speech-update" branch, lines 394-431. *)
Definition on_speech_update (e : env) (data : json) : M (option response) :=
  speech_data <- lift (py_getitem data "message") ;;
  role <- lift (py_get speech_data "role" (JStr "unknown")) ;;
  st <- lift (py_get speech_data "status" (JStr EmptyString)) ;;
  if py_eq_str st "stopped" then
    artifact <- lift (py_get speech_data "artifact" (JDict [])) ;;
    messages <- lift (py_get artifact "messages" (JList [])) ;;
    msgs <- lift (py_reversed messages) ;;
    transcript_msg <- lift (last_content_of_role role msgs) ;;
    if py_truthy transcript_msg
    then publish_entry (transcript_entry role transcript_msg (clock_hm e)) ;;; ret None
    else ret None
  else ret None.

(** [k in d] for the message dict. *)
Definition py_has_key (obj : json) (k : string) : result bool :=
  match obj with
  | JDict kv => Ok (match dict_get kv k with Some _ => true | None => false end)
  | _ => Err TypeError
  end.

(** The "conversation-update" branch, lines 434-457. *)
Definition on_conversation_update (e : env) (data : json) : M (option response) :=
  conv_data <- lift (py_getitem data "message") ;;
  has <- lift (py_has_key conv_data "conversation") ;;
  if has then
    conversation <- lift (py_get conv_data "conversation" (JList [])) ;;
    msgs <- lift (py_reversed conversation) ;;
    conversation_loop e msgs ;;;
    ret None
  else ret None.

(** The "transcript" branch, lines 460-465: [role.upper()] needs a string. *)
Definition on_transcript (data : json) : M (option response) :=
  transcript_data <- lift (py_getitem data "message") ;;
  role <- lift (py_get transcript_data "role" (JStr "unknown")) ;;
  _ <- lift (py_get transcript_data "transcript" (JStr EmptyString)) ;;
  match role with
  | JStr _ => ret None
  | _ => raise AttributeError
  end.

(** The body of the [try] block, lines 258-472. [None] stands for a
    request body that [await request.json()] cannot parse. *)
Definition webhook_body (e : env) (body : option json) : M response :=
  data <- (match body with None => raise JSONDecodeError | Some d => ret d end) ;;
  message <- lift (py_get data "message" (JDict [])) ;;
  message_type <- lift (py_get message "type" JNull) ;;
  early <-
    (if py_in_strs message_type ["function-call"; "tool-calls"] then on_function_call e data
     else if py_eq_str message_type "end-of-call-report" then on_end_of_call e data
     else if py_eq_str message_type "speech-update" then on_speech_update e data
     else if py_eq_str message_type "conversation-update" then on_conversation_update e data
     else if py_eq_str message_type "transcript" then on_transcript data
     else ret None) ;;
  ret (match early with Some r => r | None => ok_ack end).

(** handle_vapi_webhook: [except Exception as e: raise HTTPException(500, str(e))]. *)
Definition handle_vapi_webhook (e : env) (body : option json) : M response :=
  try_except (webhook_body e body) (fun ex => ret (HTTPException500 ex)).

(** simulate_order, lines 629-675. *)
Definition simulate_order (e : env) (order : json) : M response :=
  try_except
    (r <- dispatch_mission e order ;;
     items <- lift (py_items r) ;;
     ret (Respond (JDict (dict_merge [("status", JStr "success");
                                      ("message", JStr "Order dispatched")] items))))
    (fun ex => ret (HTTPException500 ex)).

(* ------------------------------------------------------------------ *)
(** * States reachable from process start *)

(** The endpoints that mutate module state are the webhook and
    simulate_order; the SSE endpoint only changes [sse_clients]; the GET
    endpoints read. *)
Inductive reachable : state -> Prop :=
| reach_init : reachable init_state
| reach_webhook e b s : reachable s -> reachable (snd (handle_vapi_webhook e b s))
| reach_simulate e o s : reachable s -> reachable (snd (simulate_order e o s))
| reach_clients cl s : reachable s ->
    reachable (mkState (drone_fleet s) (active_orders s) (live_transcript s) cl (scheduled s)).

(** An eligible unit, in the words of the Fleet Registry: present in the
    registry, available, and with capacity above 30. *)
Definition is_eligible (f : list (Z * drone)) (id : Z) : Prop :=
  exists d, fleet_get f id = Some d /\ status d = "available" /\ 30 < battery d.

(** A concrete environment and payloads used by the examples below. *)
Definition sample_env : env :=
  mkEnv "10:00 AM" "2026-01-01T10:00:00" (fun _ => "2026-01-01T10:02:00")
        (repeat 10%nat 32) "order-1" (fun _ => Some 0).

Definition one_medication : json :=
  JList [JDict [("name", JStr "Amoxicillin"); ("dosage", JStr "500mg");
                ("quantity", JInt 20); ("form", JStr "tablet")]].

Definition sample_location : json :=
  JDict [("building", JStr "Main Hospital"); ("floor", JStr "1");
         ("specific_area", JStr "ER Bay 3")].

(** The payload of the spec's dispatch example: facility, medications,
    urgency and delivery location. *)
Definition city_general_payload : json :=
  JDict [("facility", JStr "City General"); ("medications", one_medication);
         ("urgency", JStr "STAT"); ("delivery_location", sample_location)].

(** The same payload with a department. *)
Definition city_general_payload_dept : json :=
  JDict [("facility", JStr "City General"); ("department", JStr "Emergency");
         ("medications", one_medication);
         ("urgency", JStr "STAT"); ("delivery_location", sample_location)].

(** The tracking-code pattern [CIT-[0-9A-F]{4}]. *)
Definition is_upper_hex (c : ascii) : bool :=
  let n := nat_of_ascii c in
  (Nat.leb 48 n && Nat.leb n 57) || (Nat.leb 65 n && Nat.leb n 70).

Definition matches_cit_pattern (code : string) : bool :=
  String.eqb (substring 0 4 code) "CIT-" &&
  Nat.eqb (String.length code) 8 &&
  forallb is_upper_hex (list_ascii_of_string (substring 4 4 code)).

(** A "function-call" envelope invoking [dispatch_drone] with [order]. *)
Definition dispatch_envelope (order : json) : json :=
  JDict [("message", JDict [("type", JStr "function-call");
                            ("functionCall", JDict [("name", JStr "dispatch_drone");
                                                    ("parameters", order)])])].

(** A voice order with every field but the medication list. *)
Definition order_without_medications : json :=
  JDict [("caller_name", JStr "Dr. Smith"); ("facility", JStr "City General Hospital");
         ("department", JStr "Emergency Department"); ("urgency", JStr "STAT");
         ("delivery_location", sample_location)].

(** The same order with an empty medication list. *)
Definition order_empty_medications : json :=
  JDict [("caller_name", JStr "Dr. Smith"); ("facility", JStr "City General Hospital");
         ("department", JStr "Emergency Department"); ("urgency", JStr "STAT");
         ("medications", JList []); ("delivery_location", sample_location)].

(** A voice order with every field but the delivery location. *)
Definition order_without_location : json :=
  JDict [("caller_name", JStr "Dr. Smith"); ("facility", JStr "City General Hospital");
         ("department", JStr "Emergency Department"); ("urgency", JStr "STAT");
         ("medications", one_medication)].

(** The event kinds the handler has a branch for. *)
Definition handled_type (t : json) : bool :=
  py_in_strs t ["function-call"; "tool-calls"] || py_eq_str t "end-of-call-report" ||
  py_eq_str t "speech-update" || py_eq_str t "conversation-update" ||
  py_eq_str t "transcript".

(** A dispatch payload with medications and a delivery location but no
    facility. *)
Definition payload_without_facility : list (string * json) :=
  [("caller_name", JStr "Dr. Smith"); ("department", JStr "ER");
   ("medications", one_medication); ("urgency", JStr "STAT");
   ("delivery_location", sample_location)].

(** A ledger already holding an order under the identity "order-1". *)
Definition earlier_order : json := JDict [("order_id", JStr "order-1"); ("drone_id", JInt 2)].

Definition state_with_order_1 : state :=
  mkState seed_fleet [("order-1", earlier_order)] [] [] [].

(** A speech-update envelope with the given status. *)
Definition speech_update_envelope (st : string) : json :=
  JDict [("message", JDict [("type", JStr "speech-update"); ("role", JStr "user");
                            ("status", JStr st);
                            ("artifact", JDict [("messages",
                               JList [JDict [("role", JStr "user"); ("content", JStr "Hello")]])])])].

(** A conversation-update envelope carrying [conversation]. *)
Definition snapshot_envelope (conversation : list json) : json :=
  JDict [("message", JDict [("type", JStr "conversation-update");
                            ("conversation", JList conversation)])].

Definition msg (role content : string) : json :=
  JDict [("role", JStr role); ("content", JStr content)].

(** The spec's reading of the snapshot extraction: the first message (in
    the order given) that is a user or assistant message with non-empty
    content, as its (role, content). *)
Fixpoint first_utterance (msgs : list json) : option (json * json) :=
  match msgs with
  | [] => None
  | JDict kv :: rest =>
      let role := match dict_get kv "role" with Some r => r | None => JStr EmptyString end in
      let content := match dict_get kv "content" with Some c => c | None => JStr EmptyString end in
      if (py_eq_str role "user" || py_eq_str role "assistant") && py_truthy content
      then Some (role, content) else first_utterance rest
  | _ :: rest => first_utterance rest
  end.

(** Search the message list in reverse order. *)
Definition snapshot_pick (conversation : list json) : option (json * json) :=
  first_utterance (rev conversation).

Definition is_dict (j : json) : Prop := exists kv, j = JDict kv.

(** Concurrent dispatches. Every endpoint is an [async def] running on
    one asyncio event loop, and tasks only interleave at [await] points;
    dispatch_mission contains no [await], so each call runs as one atomic
    transition of the module state. Any schedule of N concurrent dispatch
    calls therefore runs them one after another, in some order: [calls]
    ranges over all such orders. Each call's result is kept, raised
    exceptions included. *)
Fixpoint run_dispatches (calls : list (env * json)) (s : state)
  : list (result json) * state :=
  match calls with
  | [] => ([], s)
  | (e, o) :: rest =>
      let (r, s1) := dispatch_mission e o s in
      let (rs, s2) := run_dispatches rest s1 in
      (r :: rs, s2)
  end.

(** A dispatch payload carrying the fields dispatch_mission reads. *)
Definition wf_order (o : json) : Prop :=
  exists kv us fac meds dep,
    o = JDict kv /\ dict_get kv "urgency" = Some (JStr us) /\
    dict_get kv "facility" = Some (JStr fac) /\
    dict_get kv "medications" = Some (JList meds) /\
    dict_get kv "department" = Some dep.

Definition no_capacity : result json := Err (PyException "No drones available").

(** Frame conditions: an action keeps the fleet's keys, or the whole fleet. *)
Definition keeps_ids {A} (m : M A) : Prop :=
  forall s, map fst (drone_fleet (snd (m s))) = map fst (drone_fleet s).

Definition keeps_fleet {A} (m : M A) : Prop :=
  forall s, drone_fleet (snd (m s)) = drone_fleet s.

(* ------------------------------------------------------------------ *)
(** * The read-only endpoints, lines 519-580 and 623-626 *)

(** [sum(1 for d in drone_fleet.values() if d["status"] == "available")] *)
Definition count_status_available (f : list (Z * drone)) : Z :=
  Z.of_nat (length (filter (fun p => String.eqb (status (snd p)) "available") f)).

(** root, the health check. *)
Definition root (s : state) : json :=
  JDict [("status", JStr "online"); ("service", JStr "Medical Drone Voice Agent");
         ("active_orders", JInt (Z.of_nat (length (active_orders s))));
         ("available_drones", JInt (count_status_available (drone_fleet s)))].

(** get_orders *)
Definition get_orders (s : state) : json :=
  JDict [("total_orders", JInt (Z.of_nat (length (active_orders s))));
         ("orders", JList (map snd (active_orders s)))].

(** A GET endpoint either answers or raises [HTTPException(status_code=404)]. *)
Inductive get_response : Type :=
| GetOk (body : json)
| HTTPException404.

(** get_order: [if order_id not in active_orders: raise HTTPException(404)]. *)
Definition get_order (order_id : string) (s : state) : get_response :=
  match dict_get (active_orders s) order_id with
  | Some o => GetOk o
  | None => HTTPException404
  end.

Definition drone_json (d : drone) : json :=
  JDict [("status", JStr (status d)); ("battery", JInt (battery d));
         ("location", JStr (location d))].

(** get_drones; the integer keys of [drone_fleet] are rendered as JSON
    object keys. *)
Definition get_drones (s : state) : json :=
  JDict [("total_drones", JInt (Z.of_nat (length (drone_fleet s))));
         ("available", JInt (count_status_available (drone_fleet s)));
         ("drones", JDict (map (fun p => (z_to_string (fst p), drone_json (snd p)))
                               (drone_fleet s)))].

(** get_transcript_history: [{"transcript": list(live_transcript)}] *)
Definition get_transcript_history (s : state) : json :=
  JDict [("transcript", JList (live_transcript s))].

(* ------------------------------------------------------------------ *)
(** * Relations between the state before and after an action *)

(** [m] relates every state to the state it leaves behind. *)
Definition preserves (R : state -> state -> Prop) {A} (m : M A) : Prop :=
  forall s, R s (snd (m s)).

(** An invariant, seen as a relation: it holds after when it held before. *)
Definition inv_rel (P : state -> Prop) : state -> state -> Prop :=
  fun s s' => P s -> P s'.

(** The speaker label of a window entry is "VAPI Agent" or "User". *)
Definition speaker_ok (j : json) : Prop :=
  py_getitem j "speaker" = Ok (JStr "VAPI Agent") \/
  py_getitem j "speaker" = Ok (JStr "User").

(** The transcript window holds at most 100 entries, each with a speaker label. *)
Definition window_ok (s : state) : Prop :=
  (length (live_transcript s) <= 100)%nat /\ Forall speaker_ok (live_transcript s).

(** Every unit of [s] is still in [s'], with the same battery and location,
    and its status is unchanged or has become "dispatched". *)
Definition fleet_step (s s' : state) : Prop :=
  forall d dr, fleet_get (drone_fleet s) d = Some dr ->
  exists dr', fleet_get (drone_fleet s') d = Some dr' /\
              battery dr' = battery dr /\ location dr' = location dr /\
              (status dr' = status dr \/ status dr' = "dispatched").

(** Every order identity stored in [s] is still stored in [s']. *)
Definition ledger_step (s s' : state) : Prop :=
  forall oid, dict_get (active_orders s) oid <> None ->
              dict_get (active_orders s') oid <> None.

(** The fixed attributes of a unit: identity, battery and location. *)
Definition unit_info (p : Z * drone) : Z * Z * string :=
  (fst p, battery (snd p), location (snd p)).

(** The fleet keeps its units and their fixed attributes. *)
Definition same_units (s s' : state) : Prop :=
  map unit_info (drone_fleet s') = map unit_info (drone_fleet s).

(** Every status in the fleet is "available" or "dispatched". *)
Definition statuses_ok (s : state) : Prop :=
  Forall (fun p => status (snd p) = "available" \/ status (snd p) = "dispatched")
         (drone_fleet s).

(** An order the search of lines 353-362 passes over. *)
Definition passed_over (e : env) (p : string * json) : Prop :=
  exists kv ts age, snd p = JDict kv /\ dict_get kv "timestamp" = Some ts /\
    age_of e ts = Some age /\
    (600 <= age \/
     py_eq_str (match dict_get kv "status" with Some v => v | None => JNull end)
               "dispatched" = false).

(** The last [n] elements of a list. *)
Definition lastn {A} (n : nat) (l : list A) : list A := skipn (length l - n) l.

(* ------------------------------------------------------------------ *)
(** * More envelopes and payloads *)

(** The newer event format: [toolCalls[0].function.arguments]. *)
Definition tool_calls_envelope (order : json) : json :=
  JDict [("message", JDict [("type", JStr "tool-calls");
                            ("toolCalls", JList [JDict [("function",
                               JDict [("name", JStr "dispatch_drone");
                                      ("arguments", order)])]])])].

(** A "function-call" event for a function with the given name. *)
Definition named_call_envelope (name : string) (params : json) : json :=
  JDict [("message", JDict [("type", JStr "function-call");
                            ("functionCall", JDict [("name", JStr name);
                                                    ("parameters", params)])])].

(** An envelope whose message is [m]. *)
Definition envelope (m : list (string * json)) : json := JDict [("message", JDict m)].

(** The fields of a voice order, with the given facility and medications. *)
Definition voice_order (facility meds : json) : json :=
  JDict [("caller_name", JStr "Dr. Smith"); ("facility", facility);
         ("department", JStr "Emergency Department"); ("urgency", JStr "routine");
         ("medications", meds); ("delivery_location", sample_location)].

(** A ledger entry as dispatch_mission writes it, created at [ts]. *)
Definition stored_order_kv (oid ts : string) : list (string * json) :=
  [("order_id", JStr oid); ("drone_id", JInt 1);
   ("confirmation_code", JStr "CIT-AAAA"); ("timestamp", JStr ts);
   ("eta", JStr ts); ("status", JStr "dispatched")].

Definition stored_order (oid ts : string) : json := JDict (stored_order_kv oid ts).

(** An order whose status has moved on from "dispatched". *)
Definition delivered_order (oid ts : string) : json :=
  JDict [("order_id", JStr oid); ("drone_id", JInt 2);
         ("confirmation_code", JStr "CIT-BBBB"); ("timestamp", JStr ts);
         ("status", JStr "delivered")].

(** A clock at 10:05: the order stamped 09:00 is 65 minutes old, every
    other ISO timestamp 5 minutes old. *)
Definition end_of_call_env : env :=
  mkEnv "10:05 AM" "2026-01-01T10:05:00" (fun _ => "2026-01-01T10:07:00")
        (repeat 10%nat 32) "order-9"
        (fun ts => match ts with
                   | JStr t => if String.eqb t "2026-01-01T09:00:00" then Some 3900 else Some 300
                   | _ => None
                   end).

(** A ledger whose first two orders are passed over by the end-of-call
    search: one dispatched 65 minutes ago, one recent but delivered. *)
Definition passed_over_orders : list (string * json) :=
  [("o0", stored_order "o0" "2026-01-01T09:00:00");
   ("o1", delivered_order "o1" "2026-01-01T10:00:00")].

Definition end_of_call_report : list (string * json) :=
  [("type", JStr "end-of-call-report"); ("durationSeconds", JInt 95);
   ("cost", JInt 1); ("transcript", JStr "Hello")].

(* ------------------------------------------------------------------ *)
(** * Frame lemmas: which actions leave the fleet's keys alone *)

Lemma keeps_ret {A} (a : A) : keeps_ids (ret a).
Proof. intro s; reflexivity. Qed.

Lemma keeps_raise {A} (e : exn) : keeps_ids (@raise A e).
Proof. intro s; reflexivity. Qed.

Lemma keeps_lift {A} (r : result A) : keeps_ids (lift r).
Proof. destruct r; intro s; reflexivity. Qed.

Lemma keeps_bind {A B} (m : M A) (k : A -> M B) :
  keeps_ids m -> (forall a, keeps_ids (k a)) -> keeps_ids (bind m k).
Proof.
  intros Hm Hk s; unfold bind.
  specialize (Hm s); destruct (m s) as [[a|ex] s'] eqn:E; simpl in *.
  - rewrite Hk; exact Hm.
  - exact Hm.
Qed.

Lemma keeps_try {A} (m : M A) (h : exn -> M A) :
  keeps_ids m -> (forall ex, keeps_ids (h ex)) -> keeps_ids (try_except m h).
Proof.
  intros Hm Hh s; unfold try_except.
  specialize (Hm s); destruct (m s) as [[a|ex] s'] eqn:E; simpl in *.
  - exact Hm.
  - rewrite Hh; exact Hm.
Qed.

Lemma fleet_set_status_ids f id st :
  map fst (fleet_set_status f id st) = map fst f.
Proof.
  induction f as [|[i d] r IH]; simpl; [reflexivity|].
  destruct (Z.eqb id i); simpl; [reflexivity|]. now rewrite IH.
Qed.

Lemma keeps_set_drone_status id st : keeps_ids (set_drone_status id st).
Proof. intro s; simpl. apply fleet_set_status_ids. Qed.

Lemma keeps_set_order oid r : keeps_ids (set_order oid r).
Proof. intro s; reflexivity. Qed.

Lemma keeps_publish_entry x : keeps_ids (publish_entry x).
Proof. intro s; reflexivity. Qed.

Lemma keeps_attach_transcript oid t d : keeps_ids (attach_transcript oid t d).
Proof.
  intro s; unfold attach_transcript, bind, get_state; simpl.
  destruct (dict_get (active_orders s) oid) as [[]|]; reflexivity.
Qed.

Lemma keeps_get_state : keeps_ids get_state.
Proof. intro s; reflexivity. Qed.

Create HintDb keeps.
#[export] Hint Resolve keeps_ret keeps_raise keeps_lift keeps_get_state
  keeps_set_drone_status keeps_set_order keeps_publish_entry
  keeps_attach_transcript : keeps.

Ltac keeps_step :=
  intros; cbv beta;
  first
    [ solve [eauto with keeps]
    | apply keeps_bind
    | apply keeps_try
    | match goal with
      | |- keeps_ids (if ?b then _ else _) => destruct b
      | |- keeps_ids (match ?x with _ => _ end) => destruct x
      end ].

Ltac solve_keeps := repeat keeps_step.

Lemma keeps_select u : keeps_ids (select_optimal_drone u).
Proof.
  intro s; unfold select_optimal_drone, bind, get_state; simpl.
  destruct (available_ids (drone_fleet s)); [reflexivity|].
  destruct (py_eq_str u "STAT"); reflexivity.
Qed.
#[export] Hint Resolve keeps_select : keeps.

Lemma keeps_calculate_eta d o : keeps_ids (calculate_eta d o).
Proof. unfold calculate_eta; solve_keeps. Qed.
#[export] Hint Resolve keeps_calculate_eta : keeps.

Lemma keeps_dispatch_mission e o : keeps_ids (dispatch_mission e o).
Proof. unfold dispatch_mission; solve_keeps. Qed.
#[export] Hint Resolve keeps_dispatch_mission : keeps.

Lemma keeps_conversation_loop e msgs : keeps_ids (conversation_loop e msgs).
Proof.
  induction msgs as [|m r IH]; simpl; [apply keeps_ret|].
  solve_keeps.
Qed.
#[export] Hint Resolve keeps_conversation_loop : keeps.

Lemma keeps_log_order o : keeps_ids (log_order o).
Proof. unfold log_order; solve_keeps. Qed.
#[export] Hint Resolve keeps_log_order : keeps.

Lemma keeps_handle_vapi_webhook e b : keeps_ids (handle_vapi_webhook e b).
Proof.
  unfold handle_vapi_webhook, webhook_body, on_function_call, on_end_of_call,
    on_speech_update, on_conversation_update, on_transcript.
  solve_keeps.
Qed.

Lemma keeps_simulate_order e o : keeps_ids (simulate_order e o).
Proof. unfold simulate_order; solve_keeps. Qed.

Lemma reachable_fleet_ids s : reachable s -> map fst (drone_fleet s) = [1; 2; 3].
Proof.
  induction 1.
  - reflexivity.
  - rewrite keeps_handle_vapi_webhook; assumption.
  - rewrite keeps_simulate_order; assumption.
  - assumption.
Qed.

(* ------------------------------------------------------------------ *)
(** * Facts about the eligible list [available] *)

Lemma eligible_spec d :
  eligible d = true <-> status d = "available" /\ 30 < battery d.
Proof.
  unfold eligible; rewrite andb_true_iff, String.eqb_eq, Z.ltb_lt; tauto.
Qed.

Lemma available_ids_cons i d r :
  available_ids ((i, d) :: r) =
  if eligible d then i :: available_ids r else available_ids r.
Proof. unfold available_ids; simpl; destruct (eligible d); reflexivity. Qed.

Lemma available_ids_keys f id : In id (available_ids f) -> In id (map fst f).
Proof.
  induction f as [|[i d] r IH]; [simpl; tauto|].
  rewrite available_ids_cons; simpl.
  destruct (eligible d); simpl; intuition.
Qed.

Lemma in_available_iff f id :
  NoDup (map fst f) -> (In id (available_ids f) <-> is_eligible f id).
Proof.
  unfold is_eligible.
  induction f as [|[i d] r IH]; simpl; intros Hnd.
  - split; [tauto|]. intros (x & H & _); discriminate.
  - inversion Hnd as [|? ? Hni Hnd']; subst.
    rewrite available_ids_cons.
    destruct (Z.eqb id i) eqn:Ei.
    + apply Z.eqb_eq in Ei; subst.
      split.
      * intros Hin. exists d; split; [reflexivity|].
        apply eligible_spec.
        destruct (eligible d) eqn:Ed; [reflexivity|].
        exfalso; apply Hni, available_ids_keys, Hin.
      * intros (x & Hx & Hs & Hb). injection Hx as Hx; subst x.
        assert (eligible d = true) as -> by (apply eligible_spec; auto).
        now left.
    + apply Z.eqb_neq in Ei.
      rewrite <- IH by assumption.
      destruct (eligible d); simpl; [|tauto].
      split; [intros [H|H]; [congruence|exact H] | tauto].
Qed.

Lemma available_ids_sorted f :
  StronglySorted Z.lt (map fst f) -> StronglySorted Z.lt (available_ids f).
Proof.
  induction f as [|[i d] r IH]; simpl; intros Hs; [constructor|].
  apply StronglySorted_inv in Hs as [Hs Hall].
  rewrite available_ids_cons.
  destruct (eligible d); [|auto].
  constructor; [auto|].
  rewrite Forall_forall in *. intros x Hx. apply Hall, available_ids_keys, Hx.
Qed.

Lemma reachable_fleet_shape s :
  reachable s ->
  NoDup (map fst (drone_fleet s)) /\ StronglySorted Z.lt (map fst (drone_fleet s)).
Proof.
  intros Hr; rewrite (reachable_fleet_ids s Hr).
  split.
  - repeat constructor; simpl; intuition discriminate.
  - repeat constructor; simpl; lia.
Qed.

(* ------------------------------------------------------------------ *)
(** * C2: selection below the highest priority tier *)

(** C2: for every urgency other than "STAT" and every registry state the
    process can reach, [select_optimal_drone] (a function of the state, so
    deterministic) leaves the state unchanged, raises "No drones available"
    exactly when no unit is available with capacity above 30, and otherwise
    returns an eligible unit whose identity is the lowest among the eligible
    ones. *)
Theorem select_non_stat_lowest_eligible (s : state) (u : json) :
  reachable s ->
  py_eq_str u "STAT" = false ->
  snd (select_optimal_drone u s) = s /\
  (fst (select_optimal_drone u s) = Err (PyException "No drones available") <->
   forall id, ~ is_eligible (drone_fleet s) id) /\
  (forall d, fst (select_optimal_drone u s) = Ok d ->
   is_eligible (drone_fleet s) d /\
   forall d', is_eligible (drone_fleet s) d' -> d <= d') /\
  ((exists d, fst (select_optimal_drone u s) = Ok d) \/
   fst (select_optimal_drone u s) = Err (PyException "No drones available")).
Proof.
  intros Hr Hu.
  destruct (reachable_fleet_shape s Hr) as [Hnd Hsorted].
  pose proof (available_ids_sorted _ Hsorted) as Hav.
  unfold select_optimal_drone, bind, get_state; simpl.
  destruct (available_ids (drone_fleet s)) as [|d rest] eqn:E.
  - simpl. split; [reflexivity|]. split; [|split].
    + split; [|reflexivity]. intros _ id Hel.
      apply (in_available_iff _ id Hnd) in Hel. rewrite E in Hel. exact Hel.
    + intros d H; discriminate.
    + right; reflexivity.
  - rewrite Hu; simpl. split; [reflexivity|]. split; [|split].
    + split; [discriminate|]. intros H. exfalso. apply (H d).
      apply in_available_iff; [exact Hnd|]. rewrite E; now left.
    + intros d0 H; injection H as <-. split.
      * apply in_available_iff; [exact Hnd|]. rewrite E; now left.
      * intros d' Hel. apply in_available_iff in Hel; [|exact Hnd].
        rewrite E in Hel. apply StronglySorted_inv in Hav as [_ Hall].
        destruct Hel as [<-|Hin]; [lia|].
        rewrite Forall_forall in Hall. specialize (Hall d' Hin). lia.
    + left; eexists; reflexivity.
Qed.

Lemma select_non_stat_lowest_eligible_witness :
  reachable init_state /\ py_eq_str (JStr "routine") "STAT" = false /\
  fst (select_optimal_drone (JStr "routine") init_state) = Ok 1.
Proof.
  split; [constructor|]. split; [reflexivity|].
  destruct (select_non_stat_lowest_eligible init_state (JStr "routine") reach_init eq_refl)
    as (_ & _ & _ & _).
  reflexivity.
Defined.

(* ------------------------------------------------------------------ *)
(** * C1: the spec's STAT dispatch example *)

Lemma upper_hex_digit n : (n < 16)%nat -> is_upper_hex (upper_char (hex_digit n)) = true.
Proof.
  intros H. do 16 (destruct n as [|n]; [reflexivity|]). lia.
Qed.

(** C1 (code_bug): on the spec's example payload (facility "City General",
    one medication, urgency "STAT", a delivery location, and no
    department), against the seed fleet with capacities [95; 88; 92],
    dispatch_mission reserves unit 1 and writes the order, then raises
    [KeyError('department')] from its log line instead of returning the
    dispatch result. *)
Theorem dispatch_city_general_raises (e : env) :
  let (r, s') := dispatch_mission e city_general_payload init_state in
  r = Err (KeyError (JStr "department")) /\
  fleet_get (drone_fleet s') 1 = Some (mkDrone "dispatched" 95 "depot") /\
  dict_get (active_orders s') (order_uuid e) <> None.
Proof.
  cbn. rewrite String.eqb_refl.
  split; [reflexivity|]. split; [reflexivity|]. discriminate.
Qed.

(** With a department field, the same dispatch selects the unit of
    capacity 95, estimates 2 minutes and returns a code of the form
    [CIT-[0-9A-F]{4}], for every value of [uuid.uuid4().hex]. *)
Lemma dispatch_city_general_with_department (e : env) a b c d rest :
  code_hex e = a :: b :: c :: d :: rest ->
  (a < 16)%nat -> (b < 16)%nat -> (c < 16)%nat -> (d < 16)%nat ->
  exists code,
    fst (dispatch_mission e city_general_payload_dept init_state) =
      Ok (JDict [("order_id", JStr (order_uuid e)); ("drone_id", JInt 1);
                 ("eta_minutes", JInt 2); ("confirmation_code", JStr code);
                 ("status", JStr "dispatched")]) /\
    matches_cit_pattern code = true.
Proof.
  intros Hx Ha Hb Hc Hd.
  eexists; split.
  - cbn. reflexivity.
  - unfold tracking_code, matches_cit_pattern. rewrite Hx. cbn.
    rewrite !upper_hex_digit by assumption.
    destruct (hex_string rest); reflexivity.
Qed.

(* ------------------------------------------------------------------ *)
(** * C3: orders without medications or delivery location *)

(** C3 (code_bug): a voice order whose payload lacks the [medications]
    key never reaches validate_order: the order log subscripts
    [order_data['medications']] first, the [KeyError] reaches the outer
    handler and the endpoint raises HTTP 500 instead of speaking the
    "No medications specified ... call back with corrected information"
    message. Nothing is reserved or written. *)
Theorem missing_medications_raises_http_500 (e : env) (s : state) :
  handle_vapi_webhook e (Some (dispatch_envelope order_without_medications)) s =
  (Ok (HTTPException500 (KeyError (JStr "medications"))), s).
Proof. reflexivity. Qed.

(** The same holds for a payload without a delivery location; only a
    present but empty field gets the spoken validation message. *)
Lemma missing_location_and_empty_medications (e : env) (s : state) :
  handle_vapi_webhook e (Some (dispatch_envelope order_without_location)) s =
  (Ok (HTTPException500 (KeyError (JStr "delivery_location"))), s) /\
  handle_vapi_webhook e (Some (dispatch_envelope order_empty_medications)) s =
  (Ok (result_msg (validation_failed_msg "No medications specified")), s).
Proof. split; reflexivity. Qed.

(* ------------------------------------------------------------------ *)
(** * C4: malformed and unrecognized envelopes *)

(** C4, counterexample: a request body that is a JSON array has no
    [.get]; the [AttributeError] is caught by the outer handler, which
    raises [HTTPException(status_code=500)] rather than returning a
    success acknowledgment. *)
Lemma malformed_envelope_raises_http_500 :
  handle_vapi_webhook sample_env (Some (JList [])) init_state =
    (Ok (HTTPException500 AttributeError), init_state) /\
  HTTPException500 AttributeError <> ok_ack.
Proof. split; [reflexivity | discriminate]. Qed.

(** C4, as the code does it: an envelope that is a JSON object, whose
    [message] (when present) is an object and whose [type] has no branch,
    is logged and acknowledged with [{"status": "ok"}] without any state
    change; but an unparseable body, or a body that is not a JSON object,
    makes the handler raise HTTP 500 (state unchanged) instead of
    acknowledging. *)
Theorem unrecognized_envelope_acknowledged (e : env) (s : state)
    (kv m : list (string * json)) :
  (dict_get kv "message" = Some (JDict m) \/ (dict_get kv "message" = None /\ m = [])) ->
  handled_type (match dict_get m "type" with Some t => t | None => JNull end) = false ->
  handle_vapi_webhook e (Some (JDict kv)) s = (Ok ok_ack, s) /\
  handle_vapi_webhook e None s = (Ok (HTTPException500 JSONDecodeError), s) /\
  (forall j, (forall kv', j <> JDict kv') ->
   handle_vapi_webhook e (Some j) s = (Ok (HTTPException500 AttributeError), s)).
Proof.
  intros Hm Ht. split; [|split].
  - assert (Hg : py_get (JDict kv) "message" (JDict []) = Ok (JDict m)).
    { simpl. destruct Hm as [-> | [-> ->]]; reflexivity. }
    unfold handle_vapi_webhook, webhook_body, try_except, bind, lift, ret.
    rewrite Hg.
    set (t := match dict_get m "type" with Some t => t | None => JNull end) in *.
    unfold handled_type in Ht.
    repeat rewrite orb_false_iff in Ht.
    destruct Ht as [[[[H1 H2] H3] H4] H5].
    cbn -[py_in_strs py_eq_str]. fold t.
    rewrite H1, H2, H3, H4, H5. reflexivity.
  - reflexivity.
  - intros j Hj. destruct j; try reflexivity. exfalso; eapply Hj; reflexivity.
Qed.

Lemma unrecognized_envelope_acknowledged_witness :
  handle_vapi_webhook sample_env
    (Some (JDict [("message", JDict [("type", JStr "status-update")])])) init_state =
  (Ok ok_ack, init_state).
Proof.
  apply (unrecognized_envelope_acknowledged sample_env init_state
           [("message", JDict [("type", JStr "status-update")])]
           [("type", JStr "status-update")]).
  - left; reflexivity.
  - reflexivity.
Defined.

(* ------------------------------------------------------------------ *)
(** * Fleet frame: the steps after the reservation leave the fleet alone *)

Lemma keeps_fleet_ret {A} (a : A) : keeps_fleet (ret a).
Proof. intro s; reflexivity. Qed.

Lemma keeps_fleet_raise {A} (ex : exn) : keeps_fleet (@raise A ex).
Proof. intro s; reflexivity. Qed.

Lemma keeps_fleet_lift {A} (r : result A) : keeps_fleet (lift r).
Proof. destruct r; intro s; reflexivity. Qed.

Lemma keeps_fleet_set_order oid r : keeps_fleet (set_order oid r).
Proof. intro s; reflexivity. Qed.

Lemma keeps_fleet_calculate_eta d o : keeps_fleet (calculate_eta d o).
Proof.
  intro s; unfold calculate_eta, bind, lift.
  destruct (py_get o "urgency" (JStr "routine")) as [u|]; [|reflexivity].
  simpl. destruct (urgency_eta_get u); reflexivity.
Qed.

Lemma keeps_fleet_bind {A B} (m : M A) (k : A -> M B) :
  keeps_fleet m -> (forall a, keeps_fleet (k a)) -> keeps_fleet (bind m k).
Proof.
  intros Hm Hk s; unfold bind.
  specialize (Hm s); destruct (m s) as [[a|ex] s'] eqn:E; simpl in *.
  - rewrite Hk; exact Hm.
  - exact Hm.
Qed.

Create HintDb keeps_fleet.
#[export] Hint Resolve keeps_fleet_ret keeps_fleet_raise keeps_fleet_lift
  keeps_fleet_set_order keeps_fleet_calculate_eta : keeps_fleet.

Ltac solve_keeps_fleet :=
  repeat (intros; cbv beta;
          first [ solve [eauto with keeps_fleet] | apply keeps_fleet_bind ]).

Lemma bind_ok {A B} (m : M A) (k : A -> M B) s a s' :
  m s = (Ok a, s') -> bind m k s = k a s'.
Proof. intros H; unfold bind; rewrite H; reflexivity. Qed.

Lemma py_max_key_in k best l : In (py_max_key k best l) (best :: l).
Proof.
  revert best; induction l as [|y r IH]; intros best; simpl; [now left|].
  destruct (Z.ltb (k best) (k y)).
  - specialize (IH y). simpl in IH. tauto.
  - specialize (IH best). simpl in IH. tauto.
Qed.

Lemma select_optimal_drone_ok u s d :
  fst (select_optimal_drone u s) = Ok d ->
  select_optimal_drone u s = (Ok d, s) /\ In d (available_ids (drone_fleet s)).
Proof.
  unfold select_optimal_drone, bind, get_state; simpl.
  destruct (available_ids (drone_fleet s)) as [|x r]; simpl; [discriminate|].
  destruct (py_eq_str u "STAT"); simpl; intros H; injection H as <-;
    split; try reflexivity.
  - apply py_max_key_in.
  - now left.
Qed.

Lemma select_optimal_drone_state u s : snd (select_optimal_drone u s) = s.
Proof.
  unfold select_optimal_drone, bind, get_state; simpl.
  destruct (available_ids (drone_fleet s)); [reflexivity|].
  destruct (py_eq_str u "STAT"); reflexivity.
Qed.

Lemma fleet_get_set_status_same f d st :
  In d (map fst f) ->
  exists dr, fleet_get (fleet_set_status f d st) d = Some dr /\ status dr = st.
Proof.
  induction f as [|[i x] r IH]; simpl; [tauto|]. intros Hin.
  destruct (Z.eqb d i) eqn:E; simpl.
  - rewrite E. eexists; split; reflexivity.
  - rewrite E. apply IH. destruct Hin as [->|H]; [rewrite Z.eqb_refl in E; discriminate|exact H].
Qed.

Lemma urgency_eta_get_str us : exists m, urgency_eta_get (JStr us) = Ok m.
Proof.
  simpl. destruct (String.eqb us "STAT"); [eauto|].
  destruct (String.eqb us "urgent"); eauto.
Qed.

(** The fleet after dispatch_mission, once the selection succeeded. *)
Lemma dispatch_mission_fleet e kv u d s :
  dict_get kv "urgency" = Some u ->
  fst (select_optimal_drone u s) = Ok d ->
  drone_fleet (snd (dispatch_mission e (JDict kv) s)) =
  fleet_set_status (drone_fleet s) d "dispatched".
Proof.
  intros Hu Hsel. apply select_optimal_drone_ok in Hsel as [Hsel _].
  unfold dispatch_mission.
  erewrite bind_ok by (simpl; rewrite Hu; reflexivity).
  erewrite bind_ok by exact Hsel.
  erewrite bind_ok by reflexivity.
  match goal with |- drone_fleet (snd (?m _)) = _ =>
    assert (Hk : keeps_fleet m) by solve_keeps_fleet end.
  rewrite Hk. reflexivity.
Qed.

(* ------------------------------------------------------------------ *)
(** * C5: no rollback after the reservation *)

(** C5: once dispatch_mission has selected unit [d] and set its status to
    "dispatched", nothing restores it: whatever happens next, success or
    exception, the unit ends with status "dispatched" (not "available").
    When the payload has no facility, minting the tracking code raises
    [KeyError('facility')] with the unit still reserved and the ledger
    exactly as before: no order is written. *)
Theorem dispatch_no_rollback (e : env) (s : state) (kv : list (string * json))
    (u : json) (d : Z) :
  dict_get kv "urgency" = Some u ->
  fst (select_optimal_drone u s) = Ok d ->
  drone_fleet (snd (dispatch_mission e (JDict kv) s)) =
    fleet_set_status (drone_fleet s) d "dispatched" /\
  (exists dr, fleet_get (drone_fleet (snd (dispatch_mission e (JDict kv) s))) d = Some dr /\
              status dr = "dispatched") /\
  (forall us, u = JStr us -> dict_get kv "facility" = None ->
   dispatch_mission e (JDict kv) s =
     (Err (KeyError (JStr "facility")),
      mkState (fleet_set_status (drone_fleet s) d "dispatched") (active_orders s)
              (live_transcript s) (sse_clients s) (scheduled s))).
Proof.
  intros Hu Hsel.
  pose proof (dispatch_mission_fleet e kv u d s Hu Hsel) as Hf.
  apply select_optimal_drone_ok in Hsel as [Hsel Hin].
  split; [exact Hf|]. split.
  - rewrite Hf. apply fleet_get_set_status_same, available_ids_keys, Hin.
  - intros us -> Hfac.
    unfold dispatch_mission.
    erewrite bind_ok by (simpl; rewrite Hu; reflexivity).
    erewrite bind_ok by exact Hsel.
    erewrite bind_ok by reflexivity.
    destruct (urgency_eta_get_str us) as [m Hm].
    erewrite bind_ok
      by (unfold calculate_eta, bind, lift, ret; cbn -[urgency_eta_get]; rewrite Hu;
          cbn -[urgency_eta_get]; rewrite Hm; reflexivity).
    simpl. rewrite Hfac. reflexivity.
Qed.

Lemma dispatch_no_rollback_witness :
  dispatch_mission sample_env (JDict payload_without_facility) init_state =
  (Err (KeyError (JStr "facility")),
   mkState (fleet_set_status seed_fleet 1 "dispatched") [] [] [] []).
Proof.
  destruct (dispatch_no_rollback sample_env init_state payload_without_facility
              (JStr "STAT") 1 eq_refl eq_refl) as (_ & _ & H).
  exact (H "STAT" eq_refl eq_refl).
Defined.

(* ------------------------------------------------------------------ *)
(** * Inversion of successful runs *)

Lemma bind_inv {A B} (m : M A) (k : A -> M B) s r s' :
  bind m k s = (Ok r, s') -> exists a s1, m s = (Ok a, s1) /\ k a s1 = (Ok r, s').
Proof.
  unfold bind; destruct (m s) as [[a|ex] s1]; intros H; [eauto|discriminate].
Qed.

Lemma lift_inv {A} (x : result A) s a s1 : lift x s = (Ok a, s1) -> x = Ok a /\ s1 = s.
Proof. destruct x; simpl; unfold ret, raise; intros H; inversion H; auto. Qed.

Lemma calculate_eta_state d o s : snd (calculate_eta d o s) = s.
Proof.
  unfold calculate_eta, bind, lift.
  destruct (py_get o "urgency" (JStr "routine")); [|reflexivity].
  simpl; destruct (urgency_eta_get a); reflexivity.
Qed.

Ltac invert_run :=
  repeat match goal with
  | H : bind _ _ _ = (Ok _, _) |- _ =>
      apply bind_inv in H; destruct H as (? & ? & ? & H)
  | H : lift _ _ = (Ok _, _) |- _ =>
      apply lift_inv in H; destruct H as [? ?]; subst
  | H : ret _ _ = (Ok _, _) |- _ => unfold ret in H; injection H as <- <-
  | H : select_optimal_drone ?u ?s = (Ok _, ?s1) |- _ =>
      let E := fresh in
      assert (E : s1 = s) by (rewrite <- (select_optimal_drone_state u s), H; reflexivity);
      subst s1
  | H : calculate_eta ?d ?o ?s = (Ok _, ?s1) |- _ =>
      let E := fresh in
      assert (E : s1 = s) by (rewrite <- (calculate_eta_state d o s), H; reflexivity);
      subst s1
  | H : set_drone_status _ _ _ = (Ok _, _) |- _ => simpl in H; injection H as H; subst
  | H : set_order _ _ _ = (Ok _, _) |- _ => simpl in H; injection H as H; subst
  end.

(* ------------------------------------------------------------------ *)
(** * C6: the ledger write *)

(** C6, counterexample: with an order already stored under "order-1" and
    [str(uuid.uuid4())] drawing "order-1" again, dispatch_mission succeeds
    and silently replaces the stored entry: no DuplicateKey failure. *)
Lemma ledger_overwrites_existing_order :
  let (r, s') := dispatch_mission sample_env city_general_payload_dept state_with_order_1 in
  (exists j, r = Ok j) /\
  map fst (active_orders s') = ["order-1"] /\
  dict_get (active_orders s') "order-1" <> Some earlier_order.
Proof.
  vm_compute. split; [eexists; reflexivity|]. split; [reflexivity|]. discriminate.
Qed.

(* The ledger write of a successful dispatch_mission: the plain
   assignment [active_orders[order_id] = ...] under [str(uuid.uuid4())]. *)
Lemma dispatch_ledger_write (e : env) (s : state) (o r : json) (s' : state) :
  dispatch_mission e o s = (Ok r, s') ->
  exists record, active_orders s' = dict_set (active_orders s) (order_uuid e) record.
Proof.
  intros H. unfold dispatch_mission in H. invert_run.
  eexists; reflexivity.
Qed.

(* ------------------------------------------------------------------ *)
(** * C7: interim speech updates *)

(** C7: a speech-update event whose [status] is not "stopped" is
    acknowledged and changes nothing: the transcript window and the
    scheduled broadcasts (like the rest of the state) stay as they were. *)
Theorem speech_update_not_stopped_no_effect (e : env) (s : state)
    (kv m : list (string * json)) :
  dict_get kv "message" = Some (JDict m) ->
  dict_get m "type" = Some (JStr "speech-update") ->
  py_eq_str (match dict_get m "status" with Some st => st | None => JStr EmptyString end)
            "stopped" = false ->
  handle_vapi_webhook e (Some (JDict kv)) s = (Ok ok_ack, s).
Proof.
  intros Hm Ht Hst.
  unfold handle_vapi_webhook, webhook_body, on_speech_update, try_except, bind, lift, ret.
  cbn -[py_eq_str]. rewrite Hm. cbn -[py_eq_str]. rewrite Ht. cbn -[py_eq_str].
  rewrite Hst. reflexivity.
Qed.

Lemma speech_update_not_stopped_no_effect_witness :
  handle_vapi_webhook sample_env (Some (speech_update_envelope "in-progress")) init_state =
  (Ok ok_ack, init_state).
Proof.
  apply (speech_update_not_stopped_no_effect sample_env init_state
           [("message", JDict [("type", JStr "speech-update"); ("role", JStr "user");
                               ("status", JStr "in-progress");
                               ("artifact", JDict [("messages",
                                  JList [JDict [("role", JStr "user");
                                                ("content", JStr "Hello")]])])])]
           [("type", JStr "speech-update"); ("role", JStr "user");
            ("status", JStr "in-progress");
            ("artifact", JDict [("messages",
               JList [JDict [("role", JStr "user"); ("content", JStr "Hello")]])])]);
    reflexivity.
Defined.

(* ------------------------------------------------------------------ *)
(** * C8: conversation snapshots *)

Lemma conversation_loop_first_utterance e ms s :
  Forall is_dict ms ->
  conversation_loop e ms s =
  (Ok tt, match first_utterance ms with
          | Some (r, c) => snd (publish_entry (transcript_entry r c (clock_hm e)) s)
          | None => s
          end).
Proof.
  induction 1 as [|x ms [kv ->] Hall IH]; [reflexivity|].
  simpl conversation_loop. simpl first_utterance.
  set (role := match dict_get kv "role" with Some r => r | None => JStr EmptyString end).
  set (content := match dict_get kv "content" with Some c => c | None => JStr EmptyString end).
  unfold bind, lift, ret. cbn [py_get]. fold role. fold content.
  unfold py_in_strs. cbn [existsb]. rewrite orb_false_r.
  destruct (py_eq_str role "user" || py_eq_str role "assistant"); simpl.
  - destruct (py_truthy content); [reflexivity|exact IH].
  - exact IH.
Qed.

(** C8: for the snapshot [system, user "A", assistant "B"] the handler
    appends exactly one entry to the window and schedules its broadcast:
    text "B", role "assistant", speaker "VAPI Agent". In general, for any
    message list, the entry published is the first message, searching the
    list in reverse, whose role is user or assistant and whose content is
    non-empty (none if there is no such message). *)
Theorem snapshot_publishes_last_utterance (e : env) (s : state) :
  let entryB := JDict [("speaker", JStr "VAPI Agent"); ("text", JStr "B");
                       ("time", JStr (clock_hm e)); ("role", JStr "assistant")] in
  handle_vapi_webhook e
    (Some (snapshot_envelope [msg "system" "You are MedWing dispatch.";
                              msg "user" "A"; msg "assistant" "B"])) s =
  (Ok ok_ack, mkState (drone_fleet s) (active_orders s)
                      (deque_append 100 (live_transcript s) entryB)
                      (sse_clients s) (scheduled s ++ [entryB])%list) /\
  (forall conversation, Forall is_dict conversation ->
   handle_vapi_webhook e (Some (snapshot_envelope conversation)) s =
   (Ok ok_ack, match snapshot_pick conversation with
               | Some (r, c) => snd (publish_entry (transcript_entry r c (clock_hm e)) s)
               | None => s
               end)).
Proof.
  intros entryB. split.
  - reflexivity.
  - intros l Hl.
    unfold handle_vapi_webhook, webhook_body, on_conversation_update, try_except.
    unfold bind; cbn -[conversation_loop].
    rewrite conversation_loop_first_utterance by (apply Forall_rev; exact Hl).
    unfold snapshot_pick. destruct (first_utterance (rev l)) as [[r c]|]; reflexivity.
Qed.

Lemma snapshot_publishes_last_utterance_witness :
  handle_vapi_webhook sample_env
    (Some (snapshot_envelope [msg "user" "A"; msg "assistant" EmptyString])) init_state =
  (Ok ok_ack, snd (publish_entry (transcript_entry (JStr "user") (JStr "A") "10:00 AM")
                                 init_state)).
Proof.
  destruct (snapshot_publishes_last_utterance sample_env init_state) as [_ H].
  apply H. repeat constructor; eexists; reflexivity.
Defined.

(* ------------------------------------------------------------------ *)
(** * C9: removing a subscriber queue *)

Lemma list_remove_registered (q : nat) (l : list nat) :
  NoDup l -> In q l ->
  exists l', list_remove q l = Ok l' /\ NoDup l' /\ (forall x, In x l' <-> In x l /\ x <> q).
Proof.
  induction l as [|c r IH]; simpl; intros Hnd Hin; [contradiction|].
  inversion Hnd as [|? ? Hc Hnd']; subst.
  destruct (Nat.eqb c q) eqn:E.
  - apply Nat.eqb_eq in E; subst c. exists r. split; [reflexivity|]. split; [exact Hnd'|].
    intros x; split.
    + intros Hx. split; [now right|]. intros ->. contradiction.
    + intros [[->|Hx] Hne]; [congruence|exact Hx].
  - apply Nat.eqb_neq in E. destruct Hin as [->|Hin]; [congruence|].
    destruct (IH Hnd' Hin) as (l' & Hl' & Hnd'' & Hx). rewrite Hl'.
    exists (c :: l'). split; [reflexivity|]. split.
    + constructor; [|exact Hnd'']. intros Hc'. apply Hc, (proj1 (Hx c) Hc').
    + intros x; simpl; rewrite Hx. split.
      * intros [->|[H1 H2]]; [split; [now left|congruence]|split; [now right|exact H2]].
      * intros [[->|H1] H2]; [now left|right; split; assumption].
Qed.

Lemma hub_step_ok ev h :
  hub_ok h -> fst (hub_step ev h) = Ok tt /\ hub_ok (snd (hub_step ev h)).
Proof.
  intros (Hnd & Hincl & Hlt). destruct ev as [|q|q]; simpl.
  - split; [reflexivity|]. unfold hub_ok, subscribe; simpl. split; [|split].
    + apply NoDup_app; [exact Hnd|constructor; [intros []|constructor]|].
      intros x Hx [<-|[]]. specialize (Hlt _ Hx). lia.
    + intros x [<-|Hx]; apply in_or_app; [right; now left|left; now apply Hincl].
    + intros x Hx. apply in_app_or in Hx as [Hx|[<-|[]]]; [specialize (Hlt _ Hx)|]; lia.
  - destruct (existsb (Nat.eqb q) (hub_live h)) eqn:E; [|split; [reflexivity|repeat split; assumption]].
    apply existsb_exists in E as (q' & Hq' & Eq). apply Nat.eqb_eq in Eq; subst q'.
    destruct (list_remove_registered q _ Hnd (Hincl _ Hq')) as (l' & -> & Hnd' & Hx).
    split; [reflexivity|]. unfold hub_ok; simpl. split; [exact Hnd'|split].
    + intros x Hin. apply in_remove in Hin as [Hin Hne]. apply Hx. split; [now apply Hincl|exact Hne].
    + intros x Hin. apply Hlt, (proj1 (proj1 (Hx x) Hin)).
  - split; [reflexivity|]. unfold hub_ok; simpl. split; [exact Hnd|split; [|exact Hlt]].
    intros x Hin. apply in_remove in Hin as [Hin _]. now apply Hincl.
Qed.

Lemma hub_run_ok evs h :
  hub_ok h -> Forall (fun r => r = Ok tt) (fst (hub_run evs h)) /\ hub_ok (snd (hub_run evs h)).
Proof.
  revert h. induction evs as [|ev rest IH]; intros h Hh; simpl; [split; [constructor|exact Hh]|].
  destruct (hub_step_ok ev h Hh) as [Hr Hh1].
  destruct (hub_step ev h) as [r h1]. simpl in Hr, Hh1. subst r.
  destruct (IH h1 Hh1) as [Hrs Hh2]. destruct (hub_run rest h1) as [rs h2].
  split; [constructor; [reflexivity|exact Hrs]|exact Hh2].
Qed.

Lemma hub_cancel_twice q h :
  let h1 := snd (hub_step (SseCancel q) h) in hub_step (SseCancel q) h1 = (Ok tt, h1).
Proof.
  intros h1.
  assert (Hn : existsb (Nat.eqb q) (hub_live h1) = false).
  { apply not_true_iff_false. intros Hq.
    apply existsb_exists in Hq as (x & Hx & Ex). apply Nat.eqb_eq in Ex; subst x.
    unfold h1 in Hx; simpl in Hx.
    destruct (existsb (Nat.eqb q) (hub_live h)) eqn:E.
    - destruct (list_remove q (hub_clients h)); simpl in Hx;
        exact (remove_In Nat.eq_dec (hub_live h) q Hx).
    - simpl in Hx.
      assert (existsb (Nat.eqb q) (hub_live h) = true) as Ht
        by (apply existsb_exists; exists q; split; [exact Hx|apply Nat.eqb_refl]).
      congruence. }
  unfold hub_step at 1. rewrite Hn. reflexivity.
Qed.

(** C9: unsubscribing happens only in [event_generator]'s
    [CancelledError] handler, which removes the generator's own queue and
    then ends the generator. Over every schedule of connections,
    cancellations and other disconnections (the same connection cancelled
    twice included), no [sse_clients.remove(queue)] ever raises; the
    registry holds each queue once and every open connection's queue; and
    cancelling a connection a second time changes nothing. *)
Theorem unsubscribe_never_raises (evs : list sse_event) :
  Forall (fun r => r = Ok tt) (fst (hub_run evs empty_hub)) /\
  NoDup (hub_clients (snd (hub_run evs empty_hub))) /\
  incl (hub_live (snd (hub_run evs empty_hub))) (hub_clients (snd (hub_run evs empty_hub))) /\
  (forall q,
   let h1 := snd (hub_step (SseCancel q) (snd (hub_run evs empty_hub))) in
   hub_step (SseCancel q) h1 = (Ok tt, h1)).
Proof.
  assert (H0 : hub_ok empty_hub) by (split; [constructor|split; [intros x []|intros x []]]).
  destruct (hub_run_ok evs empty_hub H0) as [Hrs (Hnd & Hincl & _)].
  split; [exact Hrs|split; [exact Hnd|split; [exact Hincl|]]].
  intros q. apply hub_cancel_twice.
Qed.

(** Two connections; the first is cancelled twice, the second ends
    without its handler, then is cancelled: nothing raises, and the
    second connection's queue stays registered. *)
Lemma unsubscribe_never_raises_witness :
  Forall (fun r => r = Ok tt)
    (fst (hub_run [SseConnect; SseConnect; SseCancel 0; SseCancel 0; SseClose 1; SseCancel 1]
                  empty_hub)) /\
  hub_clients (snd (hub_run [SseConnect; SseConnect; SseCancel 0; SseCancel 0; SseClose 1;
                             SseCancel 1] empty_hub)) = [1%nat].
Proof.
  split; [|reflexivity].
  apply (unsubscribe_never_raises
           [SseConnect; SseConnect; SseCancel 0; SseCancel 0; SseClose 1; SseCancel 1]).
Defined.

(* ------------------------------------------------------------------ *)
(** * Dispatch on a well-formed payload *)

Lemma dispatch_mission_no_capacity e o s :
  wf_order o -> available_ids (drone_fleet s) = [] ->
  dispatch_mission e o s = (no_capacity, s).
Proof.
  intros (kv & us & fac & meds & dep & -> & Hu & _) Hav.
  unfold dispatch_mission.
  erewrite bind_ok by (simpl; rewrite Hu; reflexivity).
  unfold bind at 1. unfold select_optimal_drone, bind at 1, get_state. rewrite Hav.
  reflexivity.
Qed.

Lemma select_some u s :
  available_ids (drone_fleet s) <> [] -> exists d, fst (select_optimal_drone u s) = Ok d.
Proof.
  unfold select_optimal_drone, bind, get_state; simpl.
  destruct (available_ids (drone_fleet s)); [congruence|].
  intros _. destruct (py_eq_str u "STAT"); simpl; eexists; reflexivity.
Qed.

Lemma dispatch_mission_success e o s :
  wf_order o -> available_ids (drone_fleet s) <> [] ->
  exists j d,
    fst (dispatch_mission e o s) = Ok j /\
    py_getitem j "drone_id" = Ok (JInt d) /\
    In d (available_ids (drone_fleet s)) /\
    drone_fleet (snd (dispatch_mission e o s)) = fleet_set_status (drone_fleet s) d "dispatched".
Proof.
  intros Hwf Hne.
  destruct Hwf as (kv & us & fac & meds & dep & -> & Hu & Hfac & Hmeds & Hdep).
  destruct (select_some (JStr us) s Hne) as [d Hd].
  pose proof (dispatch_mission_fleet e kv (JStr us) d s Hu Hd) as Hf.
  apply select_optimal_drone_ok in Hd as [Hsel Hin].
  destruct (urgency_eta_get_str us) as [m Hm].
  assert (Hrun : exists j, dispatch_mission e (JDict kv) s =
                 (Ok j, snd (dispatch_mission e (JDict kv) s)) /\
                 py_getitem j "drone_id" = Ok (JInt d)).
  { unfold dispatch_mission.
    erewrite bind_ok by (simpl; rewrite Hu; reflexivity).
    erewrite bind_ok by exact Hsel.
    erewrite bind_ok by reflexivity.
    erewrite bind_ok
      by (unfold calculate_eta, bind, lift, ret; cbn -[urgency_eta_get]; rewrite Hu;
          cbn -[urgency_eta_get]; rewrite Hm; reflexivity).
    cbn -[tracking_code dict_merge]. rewrite Hfac, Hmeds, Hdep.
    cbn -[tracking_code dict_merge]. eexists; split; reflexivity. }
  destruct Hrun as (j & Hj & Hid).
  exists j, d. rewrite Hj. simpl. repeat split; auto.
Qed.

(* ------------------------------------------------------------------ *)
(** * C10: N dispatches against K eligible units *)

Lemma filter_neq_id (d : Z) l :
  ~ In d l -> filter (fun x => negb (Z.eqb x d)) l = l.
Proof.
  induction l as [|x r IH]; simpl; intros Hn; [reflexivity|].
  destruct (Z.eqb x d) eqn:E.
  - apply Z.eqb_eq in E; subst. exfalso; apply Hn; now left.
  - simpl. rewrite IH; tauto.
Qed.

Lemma available_ids_after_reserve f d :
  NoDup (map fst f) ->
  available_ids (fleet_set_status f d "dispatched") =
  filter (fun x => negb (Z.eqb x d)) (available_ids f).
Proof.
  induction f as [|[i x] r IH]; simpl; intros Hnd; [reflexivity|].
  inversion Hnd as [|? ? Hni Hnd']; subst.
  destruct (Z.eqb d i) eqn:E.
  - apply Z.eqb_eq in E; subst.
    rewrite !available_ids_cons. simpl.
    assert (Hr : filter (fun x => negb (Z.eqb x i)) (available_ids r) = available_ids r)
      by (apply filter_neq_id; intros H; apply Hni, available_ids_keys, H).
    destruct (eligible x); simpl; [rewrite Z.eqb_refl; simpl|]; now rewrite Hr.
  - rewrite !available_ids_cons. rewrite IH by assumption.
    destruct (eligible x); simpl; [|reflexivity].
    assert (Z.eqb i d = false) as -> by (rewrite Z.eqb_sym; exact E).
    reflexivity.
Qed.

Lemma available_ids_nodup f : NoDup (map fst f) -> NoDup (available_ids f).
Proof.
  induction f as [|[i x] r IH]; simpl; intros Hnd; [constructor|].
  inversion Hnd as [|? ? Hni Hnd']; subst.
  rewrite available_ids_cons. destruct (eligible x); [|auto].
  constructor; [|auto]. intros H; apply Hni, available_ids_keys, H.
Qed.

Lemma length_filter_neq_in (d : Z) l :
  NoDup l -> In d l ->
  length (filter (fun x => negb (Z.eqb x d)) l) = (length l - 1)%nat.
Proof.
  induction l as [|x r IH]; simpl; intros Hnd Hin; [contradiction|].
  inversion Hnd as [|? ? Hni Hnd']; subst.
  destruct (Z.eqb x d) eqn:E; simpl.
  - apply Z.eqb_eq in E; subst. rewrite filter_neq_id by assumption. lia.
  - destruct Hin as [->|Hin]; [rewrite Z.eqb_refl in E; discriminate|].
    rewrite IH by assumption. destruct r; [contradiction|simpl; lia].
Qed.

(** C10: running N well-formed dispatches (in any order the event loop
    schedules them) from a registry with K <= N eligible units: the first
    K succeed, each returning a distinct unit that was eligible, the
    remaining N - K raise "No drones available", and afterwards no
    eligible unit is left. No unit is reserved twice. *)
Theorem dispatch_sequence_capacity (calls : list (env * json)) (s : state) :
  NoDup (map fst (drone_fleet s)) ->
  Forall (fun c => wf_order (snd c)) calls ->
  (length (available_ids (drone_fleet s)) <= length calls)%nat ->
  let K := length (available_ids (drone_fleet s)) in
  let (rs, s') := run_dispatches calls s in
  exists ds : list Z,
    length ds = K /\ NoDup ds /\ incl ds (available_ids (drone_fleet s)) /\
    Forall2 (fun r d => exists j, r = Ok j /\ py_getitem j "drone_id" = Ok (JInt d))
            (firstn K rs) ds /\
    skipn K rs = repeat no_capacity (length calls - K) /\
    available_ids (drone_fleet s') = [].
Proof.
  revert s. induction calls as [|[e o] rest IH]; intros s Hnd Hwf Hlen; simpl in Hlen |- *.
  - assert (Hav : available_ids (drone_fleet s) = [])
      by (destruct (available_ids (drone_fleet s)); [reflexivity|simpl in Hlen; lia]).
    rewrite Hav. exists []. repeat split; simpl; auto; try constructor.
    intros x [].
  - inversion Hwf as [|? ? Hwo Hwf']; subst. simpl in Hwo.
    destruct (available_ids (drone_fleet s)) as [|a l] eqn:Hav.
    + (* no capacity left: this call fails and the state is unchanged *)
      rewrite (dispatch_mission_no_capacity e o s Hwo Hav).
      specialize (IH s Hnd Hwf'). rewrite Hav in IH. simpl in IH.
      destruct (run_dispatches rest s) as [rs s'].
      destruct (IH ltac:(lia)) as (ds & Hl & _ & _ & _ & Hskip & Hend).
      destruct ds; [|discriminate].
      exists []. simpl in *. rewrite Hskip, Nat.sub_0_r. repeat split; auto; try constructor.
      intros x [].
    + destruct (dispatch_mission_success e o s Hwo ltac:(congruence))
        as (j & d & Hr & Hid & Hin & Hf).
      destruct (dispatch_mission e o s) as [r s1] eqn:Hds. simpl in Hr, Hf. subst r.
      assert (Hnd1 : NoDup (map fst (drone_fleet s1))).
      { rewrite Hf, fleet_set_status_ids. exact Hnd. }
      assert (Hav1 : available_ids (drone_fleet s1) =
                     filter (fun x => negb (Z.eqb x d)) (a :: l)).
      { rewrite Hf, available_ids_after_reserve, Hav by exact Hnd. reflexivity. }
      assert (Hnodup : NoDup (a :: l)) by (rewrite <- Hav; apply available_ids_nodup, Hnd).
      assert (Hlen1 : length (available_ids (drone_fleet s1)) = length l).
      { rewrite Hav1, length_filter_neq_in by first [assumption | rewrite <- Hav; assumption].
        simpl; lia. }
      simpl in Hlen.
      specialize (IH s1 Hnd1 Hwf' ltac:(rewrite Hlen1; lia)). rewrite Hlen1 in IH.
      destruct (run_dispatches rest s1) as [rs s'].
      destruct IH as (ds & Hl & Hnds & Hincl & Hf2 & Hskip & Hend).
      exists (d :: ds). simpl. repeat split.
      * now rewrite Hl.
      * constructor; [|exact Hnds].
        intros Hd. apply Hincl in Hd. rewrite Hav1 in Hd.
        apply filter_In in Hd as [_ Hd]. rewrite Z.eqb_refl in Hd. discriminate.
      * intros x [<-|Hx]; [rewrite <- Hav; exact Hin|].
        apply Hincl in Hx. rewrite Hav1 in Hx. apply filter_In in Hx as [Hx _]. exact Hx.
      * constructor; [eauto|exact Hf2].
      * exact Hskip.
      * exact Hend.
Qed.

Lemma dispatch_sequence_capacity_witness :
  let calls := repeat (sample_env, city_general_payload_dept) 4 in
  let (rs, s') := run_dispatches calls init_state in
  exists ds : list Z,
    length ds = 3%nat /\ NoDup ds /\ incl ds (available_ids (drone_fleet init_state)) /\
    Forall2 (fun r d => exists j, r = Ok j /\ py_getitem j "drone_id" = Ok (JInt d))
            (firstn 3 rs) ds /\
    skipn 3 rs = repeat no_capacity 1 /\
    available_ids (drone_fleet s') = [].
Proof.
  apply (dispatch_sequence_capacity (repeat (sample_env, city_general_payload_dept) 4)
           init_state).
  - simpl. repeat constructor; simpl; intuition discriminate.
  - repeat constructor; do 5 eexists; repeat split; reflexivity.
  - simpl. lia.
Defined.

(* ------------------------------------------------------------------ *)
(** * Relation-preserving actions *)

Section Preserves.
Context (R : state -> state -> Prop) {HR : PreOrder R}.

Lemma preserves_ret {A} (a : A) : preserves R (ret a).
Proof. intro s; simpl; reflexivity. Qed.

Lemma preserves_raise {A} (ex : exn) : preserves R (@raise A ex).
Proof. intro s; simpl; reflexivity. Qed.

Lemma preserves_lift {A} (r : result A) : preserves R (lift r).
Proof. destruct r; intro s; simpl; reflexivity. Qed.

Lemma preserves_get_state : preserves R get_state.
Proof. intro s; simpl; reflexivity. Qed.

Lemma preserves_bind {A B} (m : M A) (k : A -> M B) :
  preserves R m -> (forall a, preserves R (k a)) -> preserves R (bind m k).
Proof.
  intros Hm Hk s; unfold bind.
  specialize (Hm s); destruct (m s) as [[a|ex] s'] eqn:E; simpl in *.
  - etransitivity; [exact Hm|apply Hk].
  - exact Hm.
Qed.

Lemma preserves_try {A} (m : M A) (h : exn -> M A) :
  preserves R m -> (forall ex, preserves R (h ex)) -> preserves R (try_except m h).
Proof.
  intros Hm Hh s; unfold try_except.
  specialize (Hm s); destruct (m s) as [[a|ex] s'] eqn:E; simpl in *.
  - exact Hm.
  - etransitivity; [exact Hm|apply Hh].
Qed.

Ltac pres_step :=
  intros; cbv beta;
  first
    [ solve [eauto]
    | apply preserves_ret | apply preserves_raise | apply preserves_lift
    | apply preserves_get_state
    | apply preserves_bind
    | apply preserves_try
    | match goal with
      | |- preserves _ (if ?b then _ else _) => destruct b
      | |- preserves _ (match ?x with _ => _ end) => destruct x
      end ].

(** The state-changing primitives the endpoints use. *)
Hypothesis pres_set_drone_status : forall d, preserves R (set_drone_status d "dispatched").
Hypothesis pres_set_order : forall oid r, preserves R (set_order oid r).
Hypothesis pres_publish : forall r t tm, preserves R (publish_entry (transcript_entry r t tm)).
Hypothesis pres_attach : forall oid t d, preserves R (attach_transcript oid t d).

Lemma preserves_select u : preserves R (select_optimal_drone u).
Proof. unfold select_optimal_drone; repeat pres_step. Qed.

Lemma preserves_dispatch_mission e o : preserves R (dispatch_mission e o).
Proof.
  pose proof preserves_select.
  unfold dispatch_mission, calculate_eta; repeat pres_step.
Qed.

Lemma preserves_conversation_loop e msgs : preserves R (conversation_loop e msgs).
Proof. induction msgs as [|m r IH]; simpl; repeat pres_step. Qed.

Lemma preserves_handle_vapi_webhook e b : preserves R (handle_vapi_webhook e b).
Proof.
  pose proof preserves_dispatch_mission. pose proof preserves_conversation_loop.
  unfold handle_vapi_webhook, webhook_body, on_function_call, log_order, on_end_of_call,
    on_speech_update, on_conversation_update, on_transcript.
  repeat pres_step.
Qed.

Lemma preserves_simulate_order e o : preserves R (simulate_order e o).
Proof.
  pose proof preserves_dispatch_mission.
  unfold simulate_order; repeat pres_step.
Qed.

End Preserves.

(* ------------------------------------------------------------------ *)
(** * The relations used below are preorders *)

Lemma inv_rel_preorder (P : state -> Prop) : PreOrder (inv_rel P).
Proof. split; unfold inv_rel; [intros s H; exact H | intros x y z H1 H2 H; auto]. Qed.

Lemma same_units_preorder : PreOrder same_units.
Proof.
  split; unfold same_units; [intros s; reflexivity | intros x y z H1 H2; congruence].
Qed.

Lemma fleet_step_preorder : PreOrder fleet_step.
Proof.
  split; unfold fleet_step.
  - intros s d dr H. exists dr; auto.
  - intros x y z H1 H2 d dr H.
    destruct (H1 d dr H) as (dr1 & E1 & B1 & L1 & S1).
    destruct (H2 d dr1 E1) as (dr2 & E2 & B2 & L2 & S2).
    exists dr2; split; [exact E2|]. split; [congruence|]. split; [congruence|].
    destruct S2 as [S2|S2]; [destruct S1 as [S1|S1]|]; [left|right|right]; congruence.
Qed.

Lemma ledger_step_preorder : PreOrder ledger_step.
Proof. split; unfold ledger_step; auto. Qed.

#[export] Existing Instances inv_rel_preorder same_units_preorder fleet_step_preorder
  ledger_step_preorder.

(* ------------------------------------------------------------------ *)
(** * Facts about the primitives *)

Lemma fleet_get_set_status f i st d :
  fleet_get (fleet_set_status f i st) d =
  match fleet_get f d with
  | Some dr => Some (if Z.eqb d i then mkDrone st (battery dr) (location dr) else dr)
  | None => None
  end.
Proof.
  induction f as [|[j x] r IH]; simpl; [reflexivity|].
  destruct (Z.eqb i j) eqn:Eij; simpl.
  - apply Z.eqb_eq in Eij; subst j.
    destruct (Z.eqb d i) eqn:Edi; [reflexivity|].
    destruct (fleet_get r d); reflexivity.
  - rewrite IH. destruct (Z.eqb d j) eqn:Edj; [|reflexivity].
    apply Z.eqb_eq in Edj; subst j. rewrite Z.eqb_sym, Eij. reflexivity.
Qed.

Lemma dict_get_set {A} (kv : list (string * A)) k v k' :
  dict_get (dict_set kv k v) k' = if String.eqb k' k then Some v else dict_get kv k'.
Proof.
  induction kv as [|[k0 v0] r IH]; simpl.
  - destruct (String.eqb k' k); reflexivity.
  - destruct (String.eqb k k0) eqn:E; simpl.
    + apply String.eqb_eq in E; subst k0.
      destruct (String.eqb k' k); reflexivity.
    + rewrite IH. destruct (String.eqb k' k0) eqn:E'; [|reflexivity].
      apply String.eqb_eq in E'; subst k0.
      destruct (String.eqb k' k) eqn:E''; [|reflexivity].
      apply String.eqb_eq in E''; subst; rewrite String.eqb_refl in E; discriminate.
Qed.

Lemma dict_set_keys_in {A} (kv : list (string * A)) k v :
  In k (map fst kv) -> map fst (dict_set kv k v) = map fst kv.
Proof.
  induction kv as [|[k0 v0] r IH]; simpl; intros H; [contradiction|].
  destruct (String.eqb k k0) eqn:E; simpl; [reflexivity|].
  f_equal. apply IH. destruct H as [H|H]; [|exact H].
  subst k0. rewrite String.eqb_refl in E. discriminate.
Qed.

(* ------------------------------------------------------------------ *)
(** * C6: the ledger write, as the code does it *)

(** C6, as the code does it: on a payload carrying the fields
    dispatch_mission reads, with an eligible unit, the dispatch succeeds
    whatever the ledger already holds (there is no existence check), and
    its ledger write is the plain assignment
    [active_orders[order_id] = ...] under the identity drawn from
    [uuid.uuid4()]: that identity then maps to the new record, every other
    identity keeps its entry, and when the identity was already stored the
    ledger's keys are unchanged (the earlier entry is replaced). *)
Theorem ledger_write_is_plain_assignment (e : env) (s : state) (o : json) :
  wf_order o -> available_ids (drone_fleet s) <> [] ->
  exists r record,
    fst (dispatch_mission e o s) = Ok r /\
    active_orders (snd (dispatch_mission e o s)) =
      dict_set (active_orders s) (order_uuid e) record /\
    dict_get (active_orders (snd (dispatch_mission e o s))) (order_uuid e) = Some record /\
    (forall k, k <> order_uuid e ->
     dict_get (active_orders (snd (dispatch_mission e o s))) k = dict_get (active_orders s) k) /\
    (In (order_uuid e) (map fst (active_orders s)) ->
     map fst (active_orders (snd (dispatch_mission e o s))) = map fst (active_orders s)).
Proof.
  intros Hwf Hne.
  destruct (dispatch_mission_success e o s Hwf Hne) as (j & d & Hj & _).
  destruct (dispatch_ledger_write e s o j (snd (dispatch_mission e o s))) as [record Hrec].
  { destruct (dispatch_mission e o s) as [r s'] eqn:E. simpl in Hj. subst r. reflexivity. }
  exists j, record. rewrite Hrec. split; [exact Hj|]. split; [reflexivity|].
  split; [|split].
  - rewrite dict_get_set, String.eqb_refl. reflexivity.
  - intros k Hk. rewrite dict_get_set. apply String.eqb_neq in Hk. rewrite Hk. reflexivity.
  - apply dict_set_keys_in.
Qed.

Lemma ledger_write_is_plain_assignment_witness :
  In (order_uuid sample_env) (map fst (active_orders state_with_order_1)) /\
  exists r record,
    fst (dispatch_mission sample_env city_general_payload_dept state_with_order_1) = Ok r /\
    active_orders (snd (dispatch_mission sample_env city_general_payload_dept state_with_order_1)) =
      dict_set (active_orders state_with_order_1) "order-1" record /\
    dict_get (active_orders (snd (dispatch_mission sample_env city_general_payload_dept
                                    state_with_order_1))) "order-1" = Some record /\
    (forall k, k <> "order-1" ->
     dict_get (active_orders (snd (dispatch_mission sample_env city_general_payload_dept
                                     state_with_order_1))) k =
     dict_get (active_orders state_with_order_1) k) /\
    (In "order-1" (map fst (active_orders state_with_order_1)) ->
     map fst (active_orders (snd (dispatch_mission sample_env city_general_payload_dept
                                    state_with_order_1))) =
     map fst (active_orders state_with_order_1)).
Proof.
  split; [simpl; tauto|].
  apply (ledger_write_is_plain_assignment sample_env state_with_order_1 city_general_payload_dept).
  - do 5 eexists; repeat split; reflexivity.
  - discriminate.
Defined.

Lemma deque_append_window n w x :
  (length w <= n)%nat -> (length (deque_append n w x) <= n)%nat.
Proof.
  unfold deque_append. rewrite length_app; simpl. intros H.
  destruct (Nat.ltb n (length w + 1)) eqn:E.
  - destruct w as [|y w']; simpl in *; [apply Nat.ltb_lt in E; lia|].
    rewrite length_app; simpl; lia.
  - apply Nat.ltb_ge in E. rewrite length_app; simpl; lia.
Qed.

Lemma deque_append_forall (P : json -> Prop) n w x :
  Forall P w -> P x -> Forall P (deque_append n w x).
Proof.
  intros Hw Hx. unfold deque_append.
  assert (Forall P (w ++ [x])%list) as Hwx by (apply Forall_app; auto).
  destruct (Nat.ltb n (length (w ++ [x])%list)); [|exact Hwx].
  destruct (w ++ [x])%list; simpl; [constructor|]. inversion Hwx; assumption.
Qed.

Lemma speaker_ok_entry r t tm : speaker_ok (transcript_entry r t tm).
Proof.
  unfold speaker_ok, transcript_entry, speaker_of; simpl.
  destruct (py_eq_str r "assistant"); [left|right]; reflexivity.
Qed.

Lemma attach_transcript_run oid t d s :
  snd (attach_transcript oid t d s) =
  match dict_get (active_orders s) oid with
  | Some (JDict o) =>
      mkState (drone_fleet s)
        (dict_set (active_orders s) oid
           (JDict (dict_set (dict_set o "transcript" t) "call_duration" d)))
        (live_transcript s) (sse_clients s) (scheduled s)
  | _ => s
  end.
Proof.
  unfold attach_transcript, bind, get_state; simpl.
  destruct (dict_get (active_orders s) oid) as [[]|]; reflexivity.
Qed.

(** Actions that only touch the ledger keep the window and the fleet. *)
Lemma attach_transcript_frame oid t d s :
  drone_fleet (snd (attach_transcript oid t d s)) = drone_fleet s /\
  live_transcript (snd (attach_transcript oid t d s)) = live_transcript s.
Proof.
  rewrite attach_transcript_run. destruct (dict_get (active_orders s) oid) as [[]|]; auto.
Qed.

(* ------------------------------------------------------------------ *)
(** * The window invariant *)

Lemma window_set_drone_status d : preserves (inv_rel window_ok) (set_drone_status d "dispatched").
Proof. intros s H; exact H. Qed.

Lemma window_set_order oid r : preserves (inv_rel window_ok) (set_order oid r).
Proof. intros s H; exact H. Qed.

Lemma window_publish r t tm :
  preserves (inv_rel window_ok) (publish_entry (transcript_entry r t tm)).
Proof.
  intros s [Hl Hf]; simpl. split.
  - apply deque_append_window, Hl.
  - apply deque_append_forall; [exact Hf | apply speaker_ok_entry].
Qed.

Lemma window_attach oid t d : preserves (inv_rel window_ok) (attach_transcript oid t d).
Proof.
  intros s H. unfold window_ok. rewrite (proj2 (attach_transcript_frame oid t d s)). exact H.
Qed.

(* ------------------------------------------------------------------ *)
(** * The fleet relations *)

Lemma fleet_step_same s s' : drone_fleet s' = drone_fleet s -> fleet_step s s'.
Proof. intros E d dr H; rewrite E; exists dr; auto. Qed.

Lemma fleet_step_set_drone_status d : preserves fleet_step (set_drone_status d "dispatched").
Proof.
  intros s i dr H; simpl. rewrite fleet_get_set_status, H.
  destruct (Z.eqb i d); eexists; (split; [reflexivity|]); simpl; auto.
Qed.

Lemma fleet_step_set_order oid r : preserves fleet_step (set_order oid r).
Proof. intros s; apply fleet_step_same; reflexivity. Qed.

Lemma fleet_step_publish x : preserves fleet_step (publish_entry x).
Proof. intros s; apply fleet_step_same; reflexivity. Qed.

Lemma fleet_step_attach oid t d : preserves fleet_step (attach_transcript oid t d).
Proof. intros s; apply fleet_step_same, attach_transcript_frame. Qed.

Lemma map_unit_info_set_status f i st :
  map unit_info (fleet_set_status f i st) = map unit_info f.
Proof.
  induction f as [|[j x] r IH]; simpl; [reflexivity|].
  destruct (Z.eqb i j); simpl; [reflexivity|]. now rewrite IH.
Qed.

Lemma same_units_set_drone_status d : preserves same_units (set_drone_status d "dispatched").
Proof. intros s; apply map_unit_info_set_status. Qed.

Lemma same_units_set_order oid r : preserves same_units (set_order oid r).
Proof. intros s; reflexivity. Qed.

Lemma same_units_publish x : preserves same_units (publish_entry x).
Proof. intros s; reflexivity. Qed.

Lemma same_units_attach oid t d : preserves same_units (attach_transcript oid t d).
Proof. intros s; unfold same_units; rewrite (proj1 (attach_transcript_frame oid t d s)); reflexivity. Qed.

Lemma statuses_set_status f i :
  Forall (fun p => status (snd p) = "available" \/ status (snd p) = "dispatched") f ->
  Forall (fun p => status (snd p) = "available" \/ status (snd p) = "dispatched")
         (fleet_set_status f i "dispatched").
Proof.
  induction 1 as [|[j x] r Hx Hr IH]; simpl; [constructor|].
  destruct (Z.eqb i j); constructor; simpl; auto.
Qed.

Lemma statuses_set_drone_status d : preserves (inv_rel statuses_ok) (set_drone_status d "dispatched").
Proof. intros s H; apply statuses_set_status, H. Qed.

Lemma statuses_set_order oid r : preserves (inv_rel statuses_ok) (set_order oid r).
Proof. intros s H; exact H. Qed.

Lemma statuses_publish x : preserves (inv_rel statuses_ok) (publish_entry x).
Proof. intros s H; exact H. Qed.

Lemma statuses_attach oid t d : preserves (inv_rel statuses_ok) (attach_transcript oid t d).
Proof.
  intros s H. unfold statuses_ok. rewrite (proj1 (attach_transcript_frame oid t d s)). exact H.
Qed.

(* ------------------------------------------------------------------ *)
(** * The ledger relation *)

Lemma ledger_step_set_drone_status d : preserves ledger_step (set_drone_status d "dispatched").
Proof. intros s oid H; exact H. Qed.

Lemma ledger_step_set_order oid r : preserves ledger_step (set_order oid r).
Proof.
  intros s k H; simpl. rewrite dict_get_set. destruct (String.eqb k oid); [discriminate|exact H].
Qed.

Lemma ledger_step_publish x : preserves ledger_step (publish_entry x).
Proof. intros s oid H; exact H. Qed.

Lemma ledger_step_attach oid t d : preserves ledger_step (attach_transcript oid t d).
Proof.
  intros s k H. rewrite attach_transcript_run.
  destruct (dict_get (active_orders s) oid) as [[]|]; try exact H.
  simpl. rewrite dict_get_set. destruct (String.eqb k oid); [discriminate|exact H].
Qed.

(* ------------------------------------------------------------------ *)
(** * Invariants of the reachable states *)

Lemma reachable_window s : reachable s -> window_ok s.
Proof.
  induction 1 as [| e b s _ IH | e o s _ IH | cl s _ IH].
  - split; [simpl; lia | constructor].
  - apply (preserves_handle_vapi_webhook (inv_rel window_ok) window_set_drone_status
             window_set_order window_publish window_attach e b s IH).
  - apply (preserves_simulate_order (inv_rel window_ok) window_set_drone_status
             window_set_order e o s IH).
  - exact IH.
Qed.

Lemma step_same_units e b o s :
  same_units s (snd (handle_vapi_webhook e b s)) /\ same_units s (snd (simulate_order e o s)).
Proof.
  split.
  - apply (preserves_handle_vapi_webhook same_units same_units_set_drone_status
             same_units_set_order (fun r t tm => same_units_publish _) same_units_attach).
  - apply (preserves_simulate_order same_units same_units_set_drone_status
             same_units_set_order).
Qed.

Lemma step_statuses e b o s :
  statuses_ok s ->
  statuses_ok (snd (handle_vapi_webhook e b s)) /\ statuses_ok (snd (simulate_order e o s)).
Proof.
  intros H. split.
  - apply (preserves_handle_vapi_webhook (inv_rel statuses_ok) statuses_set_drone_status
             statuses_set_order (fun r t tm => statuses_publish _) statuses_attach e b s H).
  - apply (preserves_simulate_order (inv_rel statuses_ok) statuses_set_drone_status
             statuses_set_order e o s H).
Qed.

Lemma reachable_units s :
  reachable s ->
  map unit_info (drone_fleet s) = [(1, 95, "depot"); (2, 88, "depot"); (3, 92, "depot")] /\
  statuses_ok s.
Proof.
  induction 1 as [| e b s _ [IH1 IH2] | e o s _ [IH1 IH2] | cl s _ IH].
  - split; [reflexivity|]. repeat constructor; left; reflexivity.
  - split; [rewrite (proj1 (step_same_units e b JNull s)); exact IH1|].
    apply (step_statuses e b JNull s IH2).
  - split; [rewrite (proj2 (step_same_units e (Some JNull) o s)); exact IH1|].
    apply (step_statuses e (Some JNull) o s IH2).
  - exact IH.
Qed.

Lemma count_status_available_eligible f :
  Forall (fun p => 30 < battery (snd p)) f ->
  count_status_available f = Z.of_nat (length (available_ids f)).
Proof.
  unfold count_status_available.
  induction 1 as [|[i x] r Hx Hr IH]; [reflexivity|].
  rewrite available_ids_cons. simpl in Hx |- *. unfold eligible.
  assert (Z.ltb 30 (battery x) = true) as -> by (apply Z.ltb_lt; exact Hx).
  rewrite andb_true_r.
  destruct (String.eqb (status x) "available"); simpl length; rewrite ?Nat2Z.inj_succ; lia.
Qed.

Lemma reachable_batteries s : reachable s -> Forall (fun p => 30 < battery (snd p)) (drone_fleet s).
Proof.
  intros Hr. destruct (reachable_units s Hr) as [Hu _].
  assert (Hm : Forall (fun u : Z * Z * string => 30 < snd (fst u)) (map unit_info (drone_fleet s)))
    by (rewrite Hu; repeat constructor; simpl; lia).
  rewrite Forall_map in Hm. exact Hm.
Qed.

(** No webhook event and no simulated order removes a unit from the fleet,
    changes its battery or location, or gives it a status other than the
    one it had or "dispatched": no endpoint ever makes a dispatched unit
    available again. *)
Theorem endpoints_never_release_units (e : env) (b : option json) (o : json) (s : state) :
  fleet_step s (snd (handle_vapi_webhook e b s)) /\
  fleet_step s (snd (simulate_order e o s)).
Proof.
  split.
  - apply (preserves_handle_vapi_webhook fleet_step fleet_step_set_drone_status
             fleet_step_set_order (fun r t tm => fleet_step_publish _) fleet_step_attach).
  - apply (preserves_simulate_order fleet_step fleet_step_set_drone_status
             fleet_step_set_order).
Qed.

(** In every reachable state the fleet has exactly the three seed units,
    in key order, with their seed batteries 95, 88, 92 and location
    "depot", and each status is "available" or "dispatched". *)
Theorem reachable_fleet_fixed_units (s : state) :
  reachable s ->
  map unit_info (drone_fleet s) = [(1, 95, "depot"); (2, 88, "depot"); (3, 92, "depot")] /\
  statuses_ok s.
Proof. apply reachable_units. Qed.

Lemma reachable_fleet_fixed_units_witness :
  let s := snd (simulate_order sample_env city_general_payload_dept init_state) in
  map unit_info (drone_fleet s) = [(1, 95, "depot"); (2, 88, "depot"); (3, 92, "depot")] /\
  statuses_ok s.
Proof.
  apply reachable_fleet_fixed_units. apply reach_simulate, reach_init.
Defined.

(** In every reachable state the transcript history endpoint returns at
    most 100 entries, each labelled with speaker "VAPI Agent" or "User". *)
Theorem reachable_transcript_window (s : state) :
  reachable s ->
  exists l, get_transcript_history s = JDict [("transcript", JList l)] /\
            (length l <= 100)%nat /\ Forall speaker_ok l.
Proof.
  intros Hr. destruct (reachable_window s Hr) as [Hl Hf].
  exists (live_transcript s); auto.
Qed.

Lemma reachable_transcript_window_witness :
  exists l,
    get_transcript_history
      (snd (handle_vapi_webhook sample_env
              (Some (snapshot_envelope [msg "user" "A"; msg "assistant" "B"])) init_state)) =
    JDict [("transcript", JList l)] /\ (length l <= 100)%nat /\ Forall speaker_ok l.
Proof.
  apply reachable_transcript_window. apply reach_webhook, reach_init.
Defined.

(** An order that get_order finds is still found after any webhook event
    or simulated order: no endpoint deletes an order from the ledger. *)
Theorem stored_orders_never_removed (e : env) (b : option json) (o : json) (s : state)
    (oid : string) :
  get_order oid s <> HTTPException404 ->
  get_order oid (snd (handle_vapi_webhook e b s)) <> HTTPException404 /\
  get_order oid (snd (simulate_order e o s)) <> HTTPException404.
Proof.
  unfold get_order. intros H.
  assert (H' : dict_get (active_orders s) oid <> None)
    by (destruct (dict_get (active_orders s) oid); [discriminate|congruence]).
  pose proof (preserves_handle_vapi_webhook ledger_step ledger_step_set_drone_status
                ledger_step_set_order (fun r t tm => ledger_step_publish _) ledger_step_attach
                e b s oid H') as H1.
  pose proof (preserves_simulate_order ledger_step ledger_step_set_drone_status
                ledger_step_set_order e o s oid H') as H2.
  split; [destruct (dict_get (active_orders (snd (handle_vapi_webhook e b s))) oid)
         |destruct (dict_get (active_orders (snd (simulate_order e o s))) oid)];
    congruence.
Qed.

Lemma stored_orders_never_removed_witness :
  get_order "order-1" (snd (simulate_order sample_env city_general_payload_dept state_with_order_1))
    <> HTTPException404.
Proof.
  apply (stored_orders_never_removed sample_env None city_general_payload_dept
           state_with_order_1 "order-1").
  discriminate.
Defined.

(** In every reachable state the health check's [available_drones] and
    get_drones' [available], which count units by status alone, equal the
    number of units dispatch can still select (available with battery
    above 30); get_drones reports 3 units. *)
Theorem reachable_health_counts (s : state) :
  reachable s ->
  py_getitem (root s) "available_drones" =
    Ok (JInt (Z.of_nat (length (available_ids (drone_fleet s))))) /\
  py_getitem (get_drones s) "available" =
    Ok (JInt (Z.of_nat (length (available_ids (drone_fleet s))))) /\
  py_getitem (get_drones s) "total_drones" = Ok (JInt 3).
Proof.
  intros Hr.
  pose proof (count_status_available_eligible _ (reachable_batteries s Hr)) as Hc.
  pose proof (f_equal (@length _) (reachable_fleet_ids s Hr)) as Hl.
  rewrite length_map in Hl.
  unfold root, get_drones; simpl. rewrite Hc, Hl. repeat split.
Qed.

Lemma reachable_health_counts_witness :
  let s := snd (simulate_order sample_env city_general_payload_dept init_state) in
  py_getitem (root s) "available_drones" = Ok (JInt 2) /\
  py_getitem (get_drones s) "available" = Ok (JInt 2) /\
  py_getitem (get_drones s) "total_drones" = Ok (JInt 3).
Proof.
  destruct (reachable_health_counts (snd (simulate_order sample_env city_general_payload_dept
                                                          init_state))
              (reach_simulate _ _ _ reach_init)) as (H1 & H2 & H3).
  split; [|split]; [rewrite H1 | rewrite H2 | exact H3]; vm_compute; reflexivity.
Defined.

Lemma log_order_state o s : snd (log_order o s) = s.
Proof.
  assert (H : preserves eq (log_order o)).
  { unfold log_order.
    repeat (intros; first [apply preserves_ret | apply preserves_lift | apply preserves_bind
                          | exact (Equivalence_PreOrder eq_equivalence)]). }
  symmetry; apply H.
Qed.

Lemma log_order_ok_dict o s :
  fst (log_order o s) = Ok tt -> exists p kv, o = JDict (p :: kv).
Proof.
  destruct o as [| | | | |[|p kv]]; simpl; try discriminate. eauto.
Qed.

(** The dispatch_drone branch once the order log has run. *)
Lemma dispatch_envelope_run e o s :
  fst (log_order o s) = Ok tt ->
  handle_vapi_webhook e (Some (dispatch_envelope o)) s =
  match validate_order o with
  | Err ex => (Ok (HTTPException500 ex), s)
  | Ok v =>
      if negb (valid v) then (Ok (result_msg (validation_failed_msg (reason v))), s)
      else match dispatch_mission e o s with
           | (Ok r, s1) =>
               match confirmed_msg r with
               | Ok m => (Ok (result_msg m), s1)
               | Err _ => (Ok (result_msg apology_msg), s1)
               end
           | (Err _, s1) => (Ok (result_msg apology_msg), s1)
           end
  end.
Proof.
  intros H. destruct (log_order_ok_dict o s H) as (p & kv & ->).
  destruct (log_order (JDict (p :: kv)) s) as [r s'] eqn:E.
  pose proof (log_order_state (JDict (p :: kv)) s) as Hs. rewrite E in Hs.
  simpl in Hs, H. subst r s'.
  unfold handle_vapi_webhook, webhook_body, on_function_call, try_except, bind, lift, ret.
  cbn -[log_order validate_order dispatch_mission confirmed_msg].
  rewrite E.
  cbn -[log_order validate_order dispatch_mission confirmed_msg].
  destruct (validate_order (JDict (p :: kv))) as [v|ex]; [|reflexivity].
  destruct (valid v); [|reflexivity]. simpl.
  destruct (dispatch_mission e (JDict (p :: kv)) s) as [[r|ex] s1]; [|reflexivity].
  destruct (confirmed_msg r); reflexivity.
Qed.

(** dispatch_mission on a payload carrying the fields it reads, once the
    selection has picked [d]. *)
Lemma dispatch_mission_wf_run e kv us fac meds dep s d m :
  dict_get kv "urgency" = Some (JStr us) ->
  dict_get kv "facility" = Some (JStr fac) ->
  dict_get kv "medications" = Some (JList meds) ->
  dict_get kv "department" = Some dep ->
  fst (select_optimal_drone (JStr us) s) = Ok d ->
  urgency_eta_get (JStr us) = Ok m ->
  dispatch_mission e (JDict kv) s =
  (Ok (JDict [("order_id", JStr (order_uuid e)); ("drone_id", JInt d);
              ("eta_minutes", JInt m);
              ("confirmation_code", JStr (tracking_code (upper (substring 0 3 fac)) (code_hex e)));
              ("status", JStr "dispatched")]),
   mkState (fleet_set_status (drone_fleet s) d "dispatched")
     (dict_set (active_orders s) (order_uuid e)
        (JDict (dict_merge
                  [("order_id", JStr (order_uuid e)); ("drone_id", JInt d);
                   ("confirmation_code",
                    JStr (tracking_code (upper (substring 0 3 fac)) (code_hex e)));
                   ("timestamp", JStr (now_iso e)); ("eta", JStr (eta_iso e m));
                   ("status", JStr "dispatched")] kv)))
     (live_transcript s) (sse_clients s) (scheduled s)).
Proof.
  intros Hu Hfac Hmeds Hdep Hsel Hm.
  apply select_optimal_drone_ok in Hsel as [Hsel _].
  unfold dispatch_mission.
  erewrite bind_ok by (simpl; rewrite Hu; reflexivity).
  erewrite bind_ok by exact Hsel.
  erewrite bind_ok by reflexivity.
  erewrite bind_ok
    by (unfold calculate_eta, bind, lift, ret; cbn -[urgency_eta_get]; rewrite Hu;
        cbn -[urgency_eta_get]; rewrite Hm; reflexivity).
  cbn -[tracking_code dict_merge upper substring]. rewrite Hfac, Hmeds, Hdep.
  reflexivity.
Qed.

(** The same, with a facility that is an integer: the unit is reserved,
    then [facility[:3]] raises. *)
Lemma dispatch_mission_int_facility e kv us z s d :
  dict_get kv "urgency" = Some (JStr us) ->
  dict_get kv "facility" = Some (JInt z) ->
  fst (select_optimal_drone (JStr us) s) = Ok d ->
  dispatch_mission e (JDict kv) s =
  (Err TypeError,
   mkState (fleet_set_status (drone_fleet s) d "dispatched") (active_orders s)
     (live_transcript s) (sse_clients s) (scheduled s)).
Proof.
  intros Hu Hfac Hsel.
  apply select_optimal_drone_ok in Hsel as [Hsel _].
  destruct (urgency_eta_get_str us) as [m Hm].
  unfold dispatch_mission.
  erewrite bind_ok by (simpl; rewrite Hu; reflexivity).
  erewrite bind_ok by exact Hsel.
  erewrite bind_ok by reflexivity.
  erewrite bind_ok
    by (unfold calculate_eta, bind, lift, ret; cbn -[urgency_eta_get]; rewrite Hu;
        cbn -[urgency_eta_get]; rewrite Hm; reflexivity).
  simpl. rewrite Hfac. reflexivity.
Qed.

(** A voice order the order log accepts, whose medications are empty (or
    otherwise falsy), is answered with the spoken "No medications
    specified" message; one with medications but an empty delivery
    location gets "No delivery location specified". The medication check
    comes first, and neither answer reserves a unit or writes an order. *)
Theorem voice_order_rejected_before_dispatch (e : env) (s : state) (kv : list (string * json)) :
  fst (log_order (JDict kv) s) = Ok tt ->
  let meds := match dict_get kv "medications" with Some v => v | None => JNull end in
  let loc := match dict_get kv "delivery_location" with Some v => v | None => JNull end in
  (py_truthy meds = false ->
   handle_vapi_webhook e (Some (dispatch_envelope (JDict kv))) s =
   (Ok (result_msg (validation_failed_msg "No medications specified")), s)) /\
  (py_truthy meds = true -> py_truthy loc = false ->
   handle_vapi_webhook e (Some (dispatch_envelope (JDict kv))) s =
   (Ok (result_msg (validation_failed_msg "No delivery location specified")), s)).
Proof.
  intros Hlog meds loc. rewrite (dispatch_envelope_run e _ s Hlog).
  unfold validate_order, py_get. fold meds loc. split.
  - intros H; rewrite H; reflexivity.
  - intros H1 H2; rewrite H1, H2; reflexivity.
Qed.

Lemma voice_order_rejected_before_dispatch_witness :
  handle_vapi_webhook sample_env (Some (dispatch_envelope (voice_order (JStr "ER") (JList []))))
    init_state =
  (Ok (result_msg (validation_failed_msg "No medications specified")), init_state).
Proof.
  destruct (voice_order_rejected_before_dispatch sample_env init_state
              [("caller_name", JStr "Dr. Smith"); ("facility", JStr "ER");
               ("department", JStr "Emergency Department"); ("urgency", JStr "routine");
               ("medications", JList []); ("delivery_location", sample_location)]
              eq_refl) as [H _].
  exact (H eq_refl).
Defined.

(** A voice order that passes the log and validation and carries the
    fields dispatch_mission reads: with no eligible unit the caller hears
    the apology and nothing changes; otherwise the caller hears the
    confirmation naming the unit, the minutes and the tracking code of the
    dispatch result, and the state is the one dispatch_mission leaves. *)
Theorem valid_voice_order_outcome (e : env) (s : state) (o : json) :
  fst (log_order o s) = Ok tt ->
  validate_order o = Ok (mkValidation true EmptyString) ->
  wf_order o ->
  (available_ids (drone_fleet s) = [] ->
   handle_vapi_webhook e (Some (dispatch_envelope o)) s = (Ok (result_msg apology_msg), s)) /\
  (available_ids (drone_fleet s) <> [] ->
   exists d m c,
     fst (dispatch_mission e o s) =
       Ok (JDict [("order_id", JStr (order_uuid e)); ("drone_id", JInt d);
                  ("eta_minutes", JInt m); ("confirmation_code", JStr c);
                  ("status", JStr "dispatched")]) /\
     handle_vapi_webhook e (Some (dispatch_envelope o)) s =
     (Ok (result_msg ("Order confirmed. Drone Unit " ++ z_to_string d ++
                      " dispatched. Estimated arrival: " ++ z_to_string m ++
                      " minutes. Your tracking code is " ++ c ++ ".")),
      snd (dispatch_mission e o s))).
Proof.
  intros Hlog Hval Hwf.
  rewrite (dispatch_envelope_run e o s Hlog), Hval. simpl negb. cbv iota beta.
  split.
  - intros Hav. rewrite (dispatch_mission_no_capacity e o s Hwf Hav). reflexivity.
  - intros Hne.
    destruct Hwf as (kv & us & fac & meds & dep & -> & Hu & Hfac & Hmeds & Hdep).
    destruct (select_some (JStr us) s Hne) as [d Hd].
    destruct (urgency_eta_get_str us) as [m Hm].
    rewrite (dispatch_mission_wf_run e kv us fac meds dep s d m Hu Hfac Hmeds Hdep Hd Hm).
    do 3 eexists. split; reflexivity.
Qed.

Lemma valid_voice_order_outcome_witness :
  handle_vapi_webhook sample_env
    (Some (dispatch_envelope (voice_order (JStr "City General") one_medication)))
    (mkState (fleet_set_status (fleet_set_status (fleet_set_status seed_fleet 1 "dispatched")
                                   2 "dispatched") 3 "dispatched") [] [] [] []) =
  (Ok (result_msg apology_msg),
   mkState (fleet_set_status (fleet_set_status (fleet_set_status seed_fleet 1 "dispatched")
                                 2 "dispatched") 3 "dispatched") [] [] [] []).
Proof.
  destruct (valid_voice_order_outcome sample_env
              (mkState (fleet_set_status (fleet_set_status (fleet_set_status seed_fleet 1
                          "dispatched") 2 "dispatched") 3 "dispatched") [] [] [] [])
              (voice_order (JStr "City General") one_medication)) as [H _].
  - vm_compute; reflexivity.
  - vm_compute; reflexivity.
  - do 5 eexists; repeat split; reflexivity.
  - apply H. vm_compute; reflexivity.
Defined.

(** A voice order that passes the log and validation but whose facility
    is a number: the unit is reserved, then the tracking code cannot be
    made ([facility[:3]] raises), the caller hears the apology, and the
    unit stays "dispatched" with no order written for it. *)
Theorem voice_order_apology_after_reservation (e : env) (s : state)
    (kv : list (string * json)) (us : string) (z : Z) :
  fst (log_order (JDict kv) s) = Ok tt ->
  validate_order (JDict kv) = Ok (mkValidation true EmptyString) ->
  dict_get kv "urgency" = Some (JStr us) ->
  dict_get kv "facility" = Some (JInt z) ->
  available_ids (drone_fleet s) <> [] ->
  exists d,
    In d (available_ids (drone_fleet s)) /\
    handle_vapi_webhook e (Some (dispatch_envelope (JDict kv))) s =
    (Ok (result_msg apology_msg),
     mkState (fleet_set_status (drone_fleet s) d "dispatched") (active_orders s)
       (live_transcript s) (sse_clients s) (scheduled s)).
Proof.
  intros Hlog Hval Hu Hfac Hne.
  destruct (select_some (JStr us) s Hne) as [d Hd].
  exists d. split; [apply (select_optimal_drone_ok _ _ _ Hd)|].
  rewrite (dispatch_envelope_run e _ s Hlog), Hval. simpl negb. cbv iota beta.
  rewrite (dispatch_mission_int_facility e kv us z s d Hu Hfac Hd). reflexivity.
Qed.

Lemma voice_order_apology_after_reservation_witness :
  exists d,
    In d (available_ids (drone_fleet init_state)) /\
    handle_vapi_webhook sample_env (Some (dispatch_envelope (voice_order (JInt 7) one_medication)))
      init_state =
    (Ok (result_msg apology_msg),
     mkState (fleet_set_status seed_fleet d "dispatched") [] [] [] []).
Proof.
  apply (voice_order_apology_after_reservation sample_env init_state
           [("caller_name", JStr "Dr. Smith"); ("facility", JInt 7);
            ("department", JStr "Emergency Department"); ("urgency", JStr "routine");
            ("medications", one_medication); ("delivery_location", sample_location)]
           "routine" 7); vm_compute; first [reflexivity | discriminate].
Defined.

(** The newer event format, [toolCalls[0].function] with the order under
    [arguments], is handled exactly like the older "function-call" format
    with the same order under [parameters]: same answer, same state. *)
Theorem tool_calls_same_as_function_call (e : env) (s : state) (kv : list (string * json)) :
  handle_vapi_webhook e (Some (tool_calls_envelope (JDict kv))) s =
  handle_vapi_webhook e (Some (dispatch_envelope (JDict kv))) s.
Proof. destruct kv; reflexivity. Qed.

(** A function call naming any function other than dispatch_drone is
    acknowledged with [{"status": "ok"}] and changes nothing. *)
Theorem other_function_acknowledged (e : env) (s : state) (name : string) (params : json) :
  name <> "dispatch_drone" ->
  handle_vapi_webhook e (Some (named_call_envelope name params)) s = (Ok ok_ack, s).
Proof.
  intros Hn.
  assert (H : py_eq_str (JStr name) "dispatch_drone" = false)
    by (unfold py_eq_str; simpl; apply String.eqb_neq; exact Hn).
  unfold handle_vapi_webhook, webhook_body, on_function_call, try_except, bind, lift, ret.
  destruct (String.eqb name EmptyString); cbn -[py_eq_str]; rewrite H; reflexivity.
Qed.

Lemma other_function_acknowledged_witness :
  handle_vapi_webhook sample_env (Some (named_call_envelope "check_status" (JDict [])))
    init_state = (Ok ok_ack, init_state).
Proof. apply other_function_acknowledged. discriminate. Defined.

(* ------------------------------------------------------------------ *)
(** * Lists and dicts *)

Lemma dict_get_notin {A} (kv : list (string * A)) k : ~ In k (map fst kv) -> dict_get kv k = None.
Proof.
  induction kv as [|[k0 v0] r IH]; simpl; intros Hn; [reflexivity|].
  destruct (String.eqb k k0) eqn:E.
  - apply String.eqb_eq in E; subst; tauto.
  - apply IH; tauto.
Qed.

Lemma dict_get_app_notin {A} (pre l : list (string * A)) k :
  ~ In k (map fst pre) -> dict_get (pre ++ l) k = dict_get l k.
Proof.
  induction pre as [|[k0 v0] r IH]; simpl; intros Hn; [reflexivity|].
  destruct (String.eqb k k0) eqn:E.
  - apply String.eqb_eq in E; subst; tauto.
  - apply IH; tauto.
Qed.

Lemma dict_set_app_notin {A} (pre l : list (string * A)) k v :
  ~ In k (map fst pre) -> dict_set (pre ++ l) k v = (pre ++ dict_set l k v)%list.
Proof.
  induction pre as [|[k0 v0] r IH]; simpl; intros Hn; [reflexivity|].
  destruct (String.eqb k k0) eqn:E.
  - apply String.eqb_eq in E; subst; tauto.
  - rewrite IH by tauto. reflexivity.
Qed.

(** [{**base, **items}] for items without repeated keys: the items win. *)
Lemma dict_get_merge base items k :
  NoDup (map fst items) ->
  dict_get (dict_merge base items) k =
  match dict_get items k with Some v => Some v | None => dict_get base k end.
Proof.
  unfold dict_merge. revert base.
  induction items as [|[k0 v0] r IH]; intros base Hnd; simpl; [reflexivity|].
  inversion Hnd as [|? ? Hni Hnd']; subst.
  rewrite IH by exact Hnd'.
  destruct (String.eqb k k0) eqn:E.
  - apply String.eqb_eq in E; subst k0.
    rewrite dict_get_notin by exact Hni. rewrite dict_get_set, String.eqb_refl. reflexivity.
  - destruct (dict_get r k); [reflexivity|]. rewrite dict_get_set, E. reflexivity.
Qed.

Lemma lastn_lastn {A} (n : nat) (l m : list A) :
  lastn n (lastn n l ++ m) = lastn n (l ++ m).
Proof.
  unfold lastn.
  assert (Hs : (skipn (length l - n) l ++ m)%list = skipn (length l - n) (l ++ m))
    by (rewrite skipn_app; replace (length l - n - length l)%nat with 0%nat by lia; reflexivity).
  rewrite Hs, length_skipn, skipn_skipn, length_app.
  f_equal. lia.
Qed.

Lemma deque_append_lastn n w x :
  (0 < n)%nat -> (length w <= n)%nat -> deque_append n w x = lastn n (w ++ [x]).
Proof.
  intros Hn Hw. unfold deque_append, lastn. rewrite length_app; simpl.
  destruct (Nat.ltb n (length w + 1)) eqn:E.
  - apply Nat.ltb_lt in E. replace (length w + 1 - n)%nat with 1%nat by lia.
    destruct (w ++ [x])%list; reflexivity.
  - apply Nat.ltb_ge in E. replace (length w + 1 - n)%nat with 0%nat by lia. reflexivity.
Qed.

Lemma lastn_length {A} n (l : list A) : (length (lastn n l) <= n)%nat.
Proof. unfold lastn. rewrite length_skipn. lia. Qed.

(** [deque(maxlen=n)]: after any sequence of appends the deque holds the
    last [n] of all the entries it was given, oldest first; older entries
    are evicted in arrival order. *)
Theorem deque_keeps_last_entries (n : nat) (w xs : list json) :
  (0 < n)%nat -> (length w <= n)%nat ->
  fold_left (deque_append n) xs w = lastn n (w ++ xs).
Proof.
  intros Hn. revert w. induction xs as [|x r IH]; intros w Hw; simpl.
  - unfold lastn. rewrite app_nil_r. replace (length w - n)%nat with 0%nat by lia. reflexivity.
  - rewrite deque_append_lastn by assumption.
    rewrite IH by apply lastn_length.
    rewrite lastn_lastn, <- app_assoc. reflexivity.
Qed.

Lemma deque_keeps_last_entries_witness :
  fold_left (deque_append 2) [JInt 1; JInt 2; JInt 3] [] = [JInt 2; JInt 3].
Proof. apply (deque_keeps_last_entries 2 [] [JInt 1; JInt 2; JInt 3]); simpl; lia. Defined.

(* ------------------------------------------------------------------ *)
(** * The end-of-call report *)

Lemma find_order_app e pre l :
  find_order_for_call e (pre ++ l) =
  match find_order_for_call e pre with
  | Ok None => find_order_for_call e l
  | r => r
  end.
Proof.
  induction pre as [|[oid o] r IH]; simpl; [reflexivity|].
  destruct (py_getitem o "timestamp"); [|reflexivity].
  destruct (age_of e a); [|reflexivity].
  destruct (py_get o "status" JNull); [|reflexivity].
  destruct (Z.ltb z 600 && py_eq_str a0 "dispatched"); [reflexivity|exact IH].
Qed.


Lemma attach_transcript_result oid t d s :
  attach_transcript oid t d s = (Ok tt, snd (attach_transcript oid t d s)).
Proof.
  unfold attach_transcript, bind, get_state; simpl.
  destruct (dict_get (active_orders s) oid) as [[]|]; reflexivity.
Qed.

(** The end-of-call branch once the cost has been formatted. *)
Lemma end_of_call_run e s m t :
  dict_get m "type" = Some (JStr "end-of-call-report") ->
  fmt_4f (match dict_get m "cost" with Some c => c | None => JInt 0 end) = Ok tt ->
  dict_get m "transcript" = Some (JStr t) ->
  handle_vapi_webhook e (Some (envelope m)) s =
  match find_order_for_call e (active_orders s) with
  | Err ex => (Ok (HTTPException500 ex), s)
  | Ok None => (Ok ok_ack, s)
  | Ok (Some oid) =>
      match match dict_get (active_orders s) oid with
            | Some o => py_getitem o "confirmation_code"
            | None => Err (KeyError (JStr oid))
            end with
      | Err ex => (Ok (HTTPException500 ex), s)
      | Ok _ =>
          (Ok ok_ack,
           snd (attach_transcript oid (JStr t)
                  (match dict_get m "durationSeconds" with Some d => d | None => JInt 0 end) s))
      end
  end.
Proof.
  intros Hty Hc Ht.
  unfold handle_vapi_webhook, webhook_body, on_end_of_call, try_except, bind, lift, ret.
  cbn -[find_order_for_call attach_transcript fmt_4f].
  rewrite Hty. cbn -[find_order_for_call attach_transcript fmt_4f].
  rewrite Hc, Ht. cbn -[find_order_for_call attach_transcript].
  destruct (Z.ltb 200 (Z.of_nat (String.length t))); cbn -[find_order_for_call attach_transcript];
  (destruct (find_order_for_call e (active_orders s)) as [[oid|]|ex]; [|reflexivity|reflexivity]);
  cbn -[attach_transcript py_getitem];
  (destruct (dict_get (active_orders s) oid) as [o|];
   [destruct (py_getitem o "confirmation_code"); [|reflexivity]|reflexivity]);
  cbn -[attach_transcript]; rewrite attach_transcript_result; reflexivity.
Qed.

Lemma find_passed_over e pre : Forall (passed_over e) pre -> find_order_for_call e pre = Ok None.
Proof.
  induction 1 as [|[oid o] r (kv & ts & age & Ho & Hts & Hage & Hc) _ IH]; [reflexivity|].
  simpl in Ho; subst o. simpl. rewrite Hts, Hage.
  destruct Hc as [Hc|Hc].
  - assert (Z.ltb age 600 = false) as -> by (apply Z.ltb_ge; exact Hc). exact IH.
  - rewrite Hc, andb_false_r. exact IH.
Qed.

(** At the end of a call whose cost is a number (or absent) and whose
    transcript is a string, the transcript and the call duration are
    written into the first order of the ledger created less than 600
    seconds ago with status "dispatched"; every other order, the fleet and
    the window are left alone, and the event is acknowledged. *)
Theorem end_of_call_attaches_to_first_recent_order (e : env) (s : state)
    (m : list (string * json)) (t : string) (pre post : list (string * json))
    (oid : string) (o : list (string * json)) (ts : json) (age : Z) :
  dict_get m "type" = Some (JStr "end-of-call-report") ->
  (dict_get m "cost" = None \/ exists c, dict_get m "cost" = Some (JInt c)) ->
  dict_get m "transcript" = Some (JStr t) ->
  active_orders s = (pre ++ (oid, JDict o) :: post)%list ->
  Forall (passed_over e) pre ->
  ~ In oid (map fst pre) ->
  dict_get o "timestamp" = Some ts -> age_of e ts = Some age -> age < 600 ->
  dict_get o "status" = Some (JStr "dispatched") ->
  dict_get o "confirmation_code" <> None ->
  handle_vapi_webhook e (Some (envelope m)) s =
  (Ok ok_ack,
   mkState (drone_fleet s)
     (pre ++ (oid, JDict (dict_set (dict_set o "transcript" (JStr t)) "call_duration"
                            (match dict_get m "durationSeconds" with
                             | Some d => d | None => JInt 0 end))) :: post)%list
     (live_transcript s) (sse_clients s) (scheduled s)).
Proof.
  intros Hty Hcost Ht Hord Hpre Hn Hts Hage Hlt Hst Hcc.
  rewrite end_of_call_run with (t := t) by
    (first [exact Hty | exact Ht |
            destruct Hcost as [-> | [c ->]]; reflexivity]).
  rewrite Hord, find_order_app, find_passed_over by exact Hpre.
  simpl. rewrite Hts, Hage, Hst.
  assert (Z.ltb age 600 = true) as -> by (apply Z.ltb_lt; exact Hlt).
  simpl. rewrite dict_get_app_notin by exact Hn. simpl. rewrite String.eqb_refl. simpl.
  destruct (dict_get o "confirmation_code") eqn:Ecc; [|congruence].
  rewrite attach_transcript_run, Hord, dict_get_app_notin by exact Hn.
  simpl. rewrite String.eqb_refl, dict_set_app_notin by exact Hn.
  simpl. rewrite String.eqb_refl. reflexivity.
Qed.

Lemma end_of_call_attaches_to_first_recent_order_witness :
  let post := [("o3", stored_order "o3" "2026-01-01T10:01:00")] in
  handle_vapi_webhook end_of_call_env (Some (envelope end_of_call_report))
    (mkState seed_fleet
       (passed_over_orders ++ ("o2", stored_order "o2" "2026-01-01T10:00:00") :: post)%list
       [] [] []) =
  (Ok ok_ack,
   mkState seed_fleet
     (passed_over_orders ++
      ("o2", JDict (dict_set (dict_set (stored_order_kv "o2" "2026-01-01T10:00:00")
                                       "transcript" (JStr "Hello")) "call_duration" (JInt 95)))
      :: post)%list
     [] [] []).
Proof.
  intros post.
  apply (end_of_call_attaches_to_first_recent_order end_of_call_env
           (mkState seed_fleet
              (passed_over_orders ++ ("o2", stored_order "o2" "2026-01-01T10:00:00") :: post)%list
              [] [] [])
           end_of_call_report "Hello" passed_over_orders post "o2"
           (stored_order_kv "o2" "2026-01-01T10:00:00") (JStr "2026-01-01T10:00:00") 300).
  all: try reflexivity.
  - right; eexists; reflexivity.
  - repeat constructor; do 3 eexists;
      (split; [reflexivity|]); (split; [reflexivity|]); (split; [reflexivity|]);
      first [left; lia | right; reflexivity].
  - simpl; intuition discriminate.
  - discriminate.
Defined.

(** At the end of a call with a numeric (or absent) cost and a string
    transcript, when no order of the ledger was created less than 600
    seconds ago with status "dispatched", the event is acknowledged and
    nothing changes. *)
Theorem end_of_call_without_recent_order_no_effect (e : env) (s : state)
    (m : list (string * json)) (t : string) :
  dict_get m "type" = Some (JStr "end-of-call-report") ->
  (dict_get m "cost" = None \/ exists c, dict_get m "cost" = Some (JInt c)) ->
  dict_get m "transcript" = Some (JStr t) ->
  Forall (passed_over e) (active_orders s) ->
  handle_vapi_webhook e (Some (envelope m)) s = (Ok ok_ack, s).
Proof.
  intros Hty Hcost Ht Hall.
  rewrite end_of_call_run with (t := t) by
    (first [exact Hty | exact Ht | destruct Hcost as [-> | [c ->]]; reflexivity]).
  rewrite find_passed_over by exact Hall. reflexivity.
Qed.

Lemma end_of_call_without_recent_order_no_effect_witness :
  handle_vapi_webhook end_of_call_env (Some (envelope end_of_call_report))
    (mkState seed_fleet passed_over_orders [] [] []) =
  (Ok ok_ack, mkState seed_fleet passed_over_orders [] [] []).
Proof.
  apply (end_of_call_without_recent_order_no_effect end_of_call_env
           (mkState seed_fleet passed_over_orders [] [] []) end_of_call_report "Hello").
  all: try reflexivity.
  - right; eexists; reflexivity.
  - repeat constructor; do 3 eexists;
      (split; [reflexivity|]); (split; [reflexivity|]); (split; [reflexivity|]);
      first [left; lia | right; reflexivity].
Defined.

(** An end-of-call report whose cost is present but not a number (a
    string, null, a list or an object) cannot be formatted with [:.4f]:
    the endpoint raises HTTP 500 and nothing changes. *)
Theorem end_of_call_non_numeric_cost_raises (e : env) (s : state)
    (m : list (string * json)) (c : json) :
  dict_get m "type" = Some (JStr "end-of-call-report") ->
  dict_get m "cost" = Some c ->
  (forall z, c <> JInt z) -> (forall b, c <> JBool b) ->
  exists ex, handle_vapi_webhook e (Some (envelope m)) s = (Ok (HTTPException500 ex), s).
Proof.
  intros Hty Hc Hz Hb.
  unfold handle_vapi_webhook, webhook_body, on_end_of_call, try_except, bind, lift, ret.
  cbn -[find_order_for_call attach_transcript fmt_4f].
  rewrite Hty. cbn -[find_order_for_call attach_transcript fmt_4f].
  rewrite Hc.
  destruct c; try (exfalso; first [eapply Hz; reflexivity | eapply Hb; reflexivity]); eexists; reflexivity.
Qed.

Lemma end_of_call_non_numeric_cost_raises_witness :
  exists ex,
    handle_vapi_webhook sample_env
      (Some (envelope [("type", JStr "end-of-call-report"); ("cost", JStr "0.12")])) init_state =
    (Ok (HTTPException500 ex), init_state).
Proof.
  apply (end_of_call_non_numeric_cost_raises sample_env init_state
           [("type", JStr "end-of-call-report"); ("cost", JStr "0.12")] (JStr "0.12"));
    first [reflexivity | discriminate].
Defined.

(** A "transcript" event is only logged: with a string role (or none) it
    is acknowledged; with a role that is not a string, [role.upper()]
    raises and the endpoint answers HTTP 500. The state never changes. *)
Theorem transcript_event_role (e : env) (s : state) (m : list (string * json)) :
  dict_get m "type" = Some (JStr "transcript") ->
  handle_vapi_webhook e (Some (envelope m)) s =
  (Ok (match dict_get m "role" with
       | None | Some (JStr _) => ok_ack
       | Some _ => HTTPException500 AttributeError
       end), s).
Proof.
  intros Hty.
  unfold handle_vapi_webhook, webhook_body, on_transcript, try_except, bind, lift, ret.
  cbn. rewrite Hty. cbn.
  destruct (dict_get m "role") as [[]|]; reflexivity.
Qed.

Lemma transcript_event_role_witness :
  handle_vapi_webhook sample_env
    (Some (envelope [("type", JStr "transcript"); ("role", JInt 1)])) init_state =
  (Ok (HTTPException500 AttributeError), init_state).
Proof.
  exact (transcript_event_role sample_env init_state
           [("type", JStr "transcript"); ("role", JInt 1)] eq_refl).
Defined.

(** A message of the artifact whose role differs from [role]. *)
Lemma last_content_skip role post rest :
  Forall (fun x => exists kv, x = JDict kv /\
            py_eq (match dict_get kv "role" with Some v => v | None => JNull end) role = false)
         post ->
  last_content_of_role role (post ++ rest) = last_content_of_role role rest.
Proof.
  induction 1 as [|x r (kv & -> & Hne) _ IH]; [reflexivity|].
  simpl. rewrite Hne. exact IH.
Qed.

(** When speech stops, the entry published is the content of the last
    message of the artifact whose role is the speaker's role: messages
    after it (of other roles) are skipped, messages before it are never
    looked at. *)
Theorem stopped_speech_publishes_last_of_role (e : env) (s : state)
    (m a kvm : list (string * json)) (r c : string) (pre post : list json) :
  dict_get m "type" = Some (JStr "speech-update") ->
  dict_get m "role" = Some (JStr r) ->
  dict_get m "status" = Some (JStr "stopped") ->
  dict_get m "artifact" = Some (JDict a) ->
  dict_get a "messages" = Some (JList (pre ++ JDict kvm :: post)) ->
  dict_get kvm "role" = Some (JStr r) ->
  dict_get kvm "content" = Some (JStr c) -> c <> EmptyString ->
  Forall (fun x => exists kv, x = JDict kv /\
            py_eq (match dict_get kv "role" with Some v => v | None => JNull end) (JStr r) = false)
         post ->
  handle_vapi_webhook e (Some (envelope m)) s =
  (Ok ok_ack, snd (publish_entry (transcript_entry (JStr r) (JStr c) (clock_hm e)) s)).
Proof.
  intros Hty Hr Hst Ha Hms Hmr Hmc Hc Hpost.
  assert (Hl : last_content_of_role (JStr r) (rev (pre ++ JDict kvm :: post)) = Ok (JStr c)).
  { rewrite rev_app_distr. simpl rev. rewrite <- app_assoc.
    rewrite last_content_skip by (apply Forall_rev; exact Hpost).
    simpl. rewrite Hmr. simpl. rewrite String.eqb_refl, Hmc. reflexivity. }
  assert (Ht : py_truthy (JStr c) = true)
    by (simpl; rewrite (proj2 (String.eqb_neq c EmptyString) Hc); reflexivity).
  unfold handle_vapi_webhook, webhook_body, on_speech_update, try_except, bind, lift, ret.
  cbn -[last_content_of_role publish_entry py_truthy rev].
  rewrite Hty. cbn -[last_content_of_role publish_entry py_truthy rev].
  rewrite Hr, Hst. cbn -[last_content_of_role publish_entry py_truthy rev].
  rewrite Ha. cbn -[last_content_of_role publish_entry py_truthy rev].
  rewrite Hms. cbn -[last_content_of_role publish_entry py_truthy rev].
  rewrite Hl, Ht. reflexivity.
Qed.

Lemma stopped_speech_publishes_last_of_role_witness :
  handle_vapi_webhook sample_env
    (Some (envelope [("type", JStr "speech-update"); ("role", JStr "user");
                     ("status", JStr "stopped");
                     ("artifact", JDict [("messages",
                        JList [msg "user" "first"; msg "user" "second";
                               msg "assistant" "reply"])])]))
    init_state =
  (Ok ok_ack,
   snd (publish_entry (transcript_entry (JStr "user") (JStr "second") "10:00 AM") init_state)).
Proof.
  apply (stopped_speech_publishes_last_of_role sample_env init_state
           [("type", JStr "speech-update"); ("role", JStr "user");
            ("status", JStr "stopped");
            ("artifact", JDict [("messages",
               JList [msg "user" "first"; msg "user" "second"; msg "assistant" "reply"])])]
           [("messages",
             JList [msg "user" "first"; msg "user" "second"; msg "assistant" "reply"])]
           [("role", JStr "user"); ("content", JStr "second")]
           "user" "second" [msg "user" "first"] [msg "assistant" "reply"]);
    first [reflexivity | discriminate | repeat constructor; eexists; split; reflexivity].
Defined.

(* ------------------------------------------------------------------ *)
(** * simulate_order *)

(** simulate_order on a payload carrying the fields dispatch_mission reads
    (whatever its medication list, even empty: nothing is validated) with
    an eligible unit: the response's "status" is "dispatched", not
    "success", because the dispatch result is merged over it; the other
    fields are the message and the dispatch result's fields. *)
Theorem simulate_order_reports_dispatched (e : env) (s : state) (o : json) :
  wf_order o -> available_ids (drone_fleet s) <> [] ->
  exists d m c,
    In d (available_ids (drone_fleet s)) /\
    simulate_order e o s =
    (Ok (Respond (JDict [("status", JStr "dispatched"); ("message", JStr "Order dispatched");
                         ("order_id", JStr (order_uuid e)); ("drone_id", JInt d);
                         ("eta_minutes", JInt m); ("confirmation_code", JStr c)])),
     snd (dispatch_mission e o s)).
Proof.
  intros (kv & us & fac & meds & dep & -> & Hu & Hfac & Hmeds & Hdep) Hne.
  destruct (select_some (JStr us) s Hne) as [d Hd].
  destruct (urgency_eta_get_str us) as [m Hm].
  pose proof (dispatch_mission_wf_run e kv us fac meds dep s d m Hu Hfac Hmeds Hdep Hd Hm) as Hrun.
  exists d, m, (tracking_code (upper (substring 0 3 fac)) (code_hex e)).
  split; [apply (select_optimal_drone_ok _ _ _ Hd)|].
  unfold simulate_order, try_except, bind. rewrite Hrun. reflexivity.
Qed.

Lemma simulate_order_reports_dispatched_witness :
  exists d m c,
    In d (available_ids (drone_fleet init_state)) /\
    simulate_order sample_env (voice_order (JStr "ER") (JList [])) init_state =
    (Ok (Respond (JDict [("status", JStr "dispatched"); ("message", JStr "Order dispatched");
                         ("order_id", JStr "order-1"); ("drone_id", JInt d);
                         ("eta_minutes", JInt m); ("confirmation_code", JStr c)])),
     snd (dispatch_mission sample_env (voice_order (JStr "ER") (JList [])) init_state)).
Proof.
  apply (simulate_order_reports_dispatched sample_env init_state
           (voice_order (JStr "ER") (JList []))).
  - do 5 eexists; repeat split; reflexivity.
  - discriminate.
Defined.

(** simulate_order with no eligible unit, on any dict body (FastAPI's
    [order: Dict]), raises HTTP 500 and changes nothing: "No drones
    available" when the body has an "urgency" (whatever its value), and
    [KeyError('urgency')] when it has none. No other field is read. *)
Theorem simulate_order_no_capacity (e : env) (s : state) (kv : list (string * json)) :
  available_ids (drone_fleet s) = [] ->
  simulate_order e (JDict kv) s =
  (Ok (HTTPException500 (match dict_get kv "urgency" with
                         | Some _ => PyException "No drones available"
                         | None => KeyError (JStr "urgency")
                         end)), s).
Proof.
  intros Hav.
  unfold simulate_order, try_except, dispatch_mission, select_optimal_drone, bind, lift,
    get_state.
  cbn -[available_ids]. destruct (dict_get kv "urgency"); [|reflexivity].
  cbn -[available_ids]. rewrite Hav. reflexivity.
Qed.

Lemma simulate_order_no_capacity_witness :
  let s := mkState (fleet_set_status (fleet_set_status (fleet_set_status seed_fleet 1
                      "dispatched") 2 "dispatched") 3 "dispatched") [] [] [] [] in
  simulate_order sample_env (JDict [("urgency", JStr "STAT")]) s =
  (Ok (HTTPException500 (PyException "No drones available")), s) /\
  simulate_order sample_env (JDict [("facility", JStr "City General")]) s =
  (Ok (HTTPException500 (KeyError (JStr "urgency"))), s).
Proof.
  intros s. split.
  - apply (simulate_order_no_capacity sample_env s [("urgency", JStr "STAT")]). reflexivity.
  - apply (simulate_order_no_capacity sample_env s [("facility", JStr "City General")]).
    reflexivity.
Defined.

(* ------------------------------------------------------------------ *)
(** * dispatch_mission: the urgency field *)

(** A payload without "urgency" makes dispatch_mission raise
    [KeyError('urgency')] before anything is reserved. An urgency that is
    a list or an object is accepted by the selection (it is not "STAT")
    and a unit is reserved, but the ETA table lookup then raises
    [TypeError] (unhashable key): the unit stays "dispatched" and no order
    is written. *)
Theorem dispatch_urgency_edge_cases (e : env) (s : state) (kv : list (string * json)) :
  (dict_get kv "urgency" = None ->
   dispatch_mission e (JDict kv) s = (Err (KeyError (JStr "urgency")), s)) /\
  (forall u, dict_get kv "urgency" = Some u ->
   (exists l, u = JList l) \/ (exists d, u = JDict d) ->
   available_ids (drone_fleet s) <> [] ->
   exists d,
     In d (available_ids (drone_fleet s)) /\
     dispatch_mission e (JDict kv) s =
     (Err TypeError,
      mkState (fleet_set_status (drone_fleet s) d "dispatched") (active_orders s)
        (live_transcript s) (sse_clients s) (scheduled s))).
Proof.
  split.
  - intros Hu. unfold dispatch_mission, bind, lift. simpl. rewrite Hu. reflexivity.
  - intros u Hu Hshape Hne.
    destruct (select_some u s Hne) as [d Hd].
    exists d. split; [apply (select_optimal_drone_ok _ _ _ Hd)|].
    apply select_optimal_drone_ok in Hd as [Hsel _].
    unfold dispatch_mission.
    erewrite bind_ok by (simpl; rewrite Hu; reflexivity).
    erewrite bind_ok by exact Hsel.
    erewrite bind_ok by reflexivity.
    unfold calculate_eta, bind, lift, ret. simpl. rewrite Hu.
    destruct Hshape as [[l ->] | [dd ->]]; reflexivity.
Qed.

Lemma dispatch_urgency_edge_cases_witness :
  exists d,
    In d (available_ids (drone_fleet init_state)) /\
    dispatch_mission sample_env (JDict [("urgency", JList [JStr "STAT"])]) init_state =
    (Err TypeError, mkState (fleet_set_status seed_fleet d "dispatched") [] [] [] []).
Proof.
  destruct (dispatch_urgency_edge_cases sample_env init_state
              [("urgency", JList [JStr "STAT"])]) as [_ H].
  apply (H (JList [JStr "STAT"])).
  - reflexivity.
  - left; eexists; reflexivity.
  - discriminate.
Defined.

(* ------------------------------------------------------------------ *)
(** * STAT selection *)

Lemma py_max_key_spec k best l :
  StronglySorted Z.lt (best :: l) ->
  let x := py_max_key k best l in
  (forall y, In y (best :: l) -> k y <= k x) /\
  (forall y, In y (best :: l) -> k y = k x -> x <= y).
Proof.
  revert best. induction l as [|y r IH]; intros best Hs x.
  - simpl in x; subst x. split; intros y [<-|[]]; lia.
  - apply StronglySorted_inv in Hs as [Hs Hall].
    apply StronglySorted_inv in Hs as [Hr Hallr].
    rewrite Forall_forall in Hall, Hallr.
    simpl in x.
    destruct (Z.ltb (k best) (k y)) eqn:E.
    + apply Z.ltb_lt in E.
      destruct (IH y (SSorted_cons y Hr (proj2 (Forall_forall _ _) Hallr))) as [H1 H2].
      fold x in H1, H2. split.
      * intros z [<-|Hz]; [specialize (H1 y (or_introl eq_refl)); lia|exact (H1 z Hz)].
      * intros z [<-|Hz] Hk; [specialize (H1 y (or_introl eq_refl)); lia|exact (H2 z Hz Hk)].
    + apply Z.ltb_ge in E.
      assert (Hsb : StronglySorted Z.lt (best :: r)).
      { constructor; [exact Hr|]. apply Forall_forall. intros z Hz. apply Hall. now right. }
      destruct (IH best Hsb) as [H1 H2]. fold x in H1, H2. split.
      * intros z [<-|[<-|Hz]].
        -- exact (H1 best (or_introl eq_refl)).
        -- specialize (H1 best (or_introl eq_refl)). lia.
        -- exact (H1 z (or_intror Hz)).
      * intros z [<-|[<-|Hz]] Hk.
        -- exact (H2 best (or_introl eq_refl) Hk).
        -- specialize (H1 best (or_introl eq_refl)).
           assert (Hxb : x <= best) by (apply H2; [now left | lia]).
           specialize (Hall y (or_introl eq_refl)). lia.
        -- exact (H2 z (or_intror Hz) Hk).
Qed.

(** For a "STAT" order in any reachable state, the selected unit is
    eligible, no eligible unit has a larger battery, and among eligible
    units with the same battery it has the lowest identity. *)
Theorem select_stat_max_battery (s : state) (u : json) (d : Z) :
  reachable s ->
  py_eq_str u "STAT" = true ->
  fst (select_optimal_drone u s) = Ok d ->
  is_eligible (drone_fleet s) d /\
  forall d', is_eligible (drone_fleet s) d' ->
    battery_of (drone_fleet s) d' <= battery_of (drone_fleet s) d /\
    (battery_of (drone_fleet s) d' = battery_of (drone_fleet s) d -> d <= d').
Proof.
  intros Hr Hu Hd.
  destruct (reachable_fleet_shape s Hr) as [Hnd Hsorted].
  pose proof (available_ids_sorted _ Hsorted) as Hav.
  pose proof Hd as Hd'. apply select_optimal_drone_ok in Hd' as [_ Hin].
  split; [apply in_available_iff; assumption|].
  intros d' Hel. apply in_available_iff in Hel; [|exact Hnd].
  unfold select_optimal_drone, bind, get_state in Hd; simpl in Hd.
  destruct (available_ids (drone_fleet s)) as [|x rest]; [discriminate|].
  rewrite Hu in Hd. simpl in Hd. injection Hd as <-.
  destruct (py_max_key_spec (battery_of (drone_fleet s)) x rest Hav) as [H1 H2].
  split; [apply H1, Hel | apply H2, Hel].
Qed.

Lemma select_stat_max_battery_witness :
  let s := snd (simulate_order sample_env city_general_payload_dept init_state) in
  is_eligible (drone_fleet s) 3 /\
  forall d', is_eligible (drone_fleet s) d' ->
    battery_of (drone_fleet s) d' <= battery_of (drone_fleet s) 3 /\
    (battery_of (drone_fleet s) d' = battery_of (drone_fleet s) 3 -> 3 <= d').
Proof.
  apply (select_stat_max_battery _ (JStr "STAT") 3).
  - apply reach_simulate, reach_init.
  - reflexivity.
  - vm_compute. reflexivity.
Defined.

(* ------------------------------------------------------------------ *)
(** * The tracking code and the stored order *)

(** Every successful dispatch whose facility is a string returns the
    tracking code [upper(facility[:3]) + "-" + h] with [h] four uppercase
    hexadecimal digits; a facility shorter than three characters gives a
    shorter prefix. *)
Theorem dispatch_code_shape (e : env) (s : state) (o r : json) (s' : state) (fac : string)
    (a b c d : nat) (rest : list nat) :
  dispatch_mission e o s = (Ok r, s') ->
  py_getitem o "facility" = Ok (JStr fac) ->
  code_hex e = a :: b :: c :: d :: rest ->
  (a < 16)%nat -> (b < 16)%nat -> (c < 16)%nat -> (d < 16)%nat ->
  exists h,
    py_getitem r "confirmation_code" = Ok (JStr (upper (substring 0 3 fac) ++ "-" ++ h)) /\
    String.length h = 4%nat /\ forallb is_upper_hex (list_ascii_of_string h) = true.
Proof.
  intros H Hfac Hx Ha Hb Hc Hd. unfold dispatch_mission in H. invert_run.
  match goal with
  | H1 : py_getitem o "facility" = Ok ?f, H2 : py_slice3_upper ?f = Ok _ |- _ =>
      rewrite Hfac in H1; injection H1 as <-; simpl in H2; injection H2 as <-
  end.
  exists (upper (substring 0 4 (hex_string (code_hex e)))).
  split; [reflexivity|].
  rewrite Hx. simpl. rewrite !upper_hex_digit by assumption.
  destruct (hex_string rest); split; reflexivity.
Qed.

Lemma dispatch_code_shape_witness :
  exists h,
    py_getitem (match fst (dispatch_mission sample_env (voice_order (JStr "ER") one_medication)
                             init_state) with Ok j => j | Err _ => JNull end)
      "confirmation_code" = Ok (JStr (upper (substring 0 3 "ER") ++ "-" ++ h)) /\
    String.length h = 4%nat /\ forallb is_upper_hex (list_ascii_of_string h) = true.
Proof.
  apply (dispatch_code_shape sample_env init_state (voice_order (JStr "ER") one_medication)
           _ (snd (dispatch_mission sample_env (voice_order (JStr "ER") one_medication)
                     init_state)) "ER" 10 10 10 10 (repeat 10%nat 28));
    first [vm_compute; reflexivity | lia].
Defined.

(** After a successful dispatch, get_order with the new order's identity
    returns the stored record: every field of the payload (keys not
    repeated) is stored as given, overriding the fields the dispatcher
    derives; for "order_id", "drone_id", "confirmation_code" and "status",
    when the payload does not set them, the record holds the values the
    dispatch returned. *)
Theorem dispatch_record_round_trip (e : env) (s : state) (kv : list (string * json))
    (r : json) (s' : state) :
  NoDup (map fst kv) ->
  dispatch_mission e (JDict kv) s = (Ok r, s') ->
  exists rec,
    get_order (order_uuid e) s' = GetOk (JDict rec) /\
    (forall k v, dict_get kv k = Some v -> dict_get rec k = Some v) /\
    (forall k, In k ["order_id"; "drone_id"; "confirmation_code"; "status"] ->
     dict_get kv k = None -> py_getitem (JDict rec) k = py_getitem r k).
Proof.
  intros Hnd H. unfold dispatch_mission in H. invert_run.
  match goal with H1 : py_items (JDict kv) = Ok _ |- _ => simpl in H1; injection H1 as <- end.
  unfold get_order; simpl. rewrite dict_get_set, String.eqb_refl.
  eexists; split; [reflexivity|]. split.
  - intros k v Hk. rewrite dict_get_merge, Hk by exact Hnd. reflexivity.
  - intros k Hin Hk. unfold py_getitem. rewrite dict_get_merge, Hk by exact Hnd.
    simpl in Hin. intuition subst; reflexivity.
Qed.

Lemma dispatch_record_round_trip_witness :
  let o := [("facility", JStr "City General"); ("department", JStr "Emergency");
            ("medications", one_medication); ("urgency", JStr "STAT");
            ("status", JStr "held")] in
  exists rec,
    get_order "order-1" (snd (dispatch_mission sample_env (JDict o) init_state)) =
      GetOk (JDict rec) /\
    (forall k v, dict_get o k = Some v -> dict_get rec k = Some v) /\
    (forall k, In k ["order_id"; "drone_id"; "confirmation_code"; "status"] ->
     dict_get o k = None ->
     py_getitem (JDict rec) k =
     py_getitem (match fst (dispatch_mission sample_env (JDict o) init_state) with
                 | Ok j => j | Err _ => JNull end) k).
Proof.
  intros o.
  apply (dispatch_record_round_trip sample_env init_state o).
  - repeat constructor; simpl; intuition discriminate.
  - vm_compute. reflexivity.
Defined.
